(** * Time-window reduction and the expiring cache of the dashboard

    Shallow embedding of

    - [lib/cache.ts]: the class [DataCache] (an expiring map from strings
      to values) and [optimizeDataForTimeWindow], the count-based reducer
      memoised through the module-wide [dataCache];
    - [app/components/TimeWindowFilter.tsx]: [filterDataByTimeWindow], the
      date-cutoff reducer.

    JavaScript's clock is made explicit: every [Date.now()] and every
    [new Date()] of the source is an argument of the embedded function, in
    milliseconds since the epoch.  Numbers that the source only uses as
    integers (timestamps, lengths, indices, TTL minutes) are in [Z]. *)

From Stdlib Require Import ZArith List Lia Bool Ascii String.
From stdpp Require Import gmap strings list pretty.

Local Open Scope Z_scope.

(** ** Arrays *)

Section Arrays.
Context {A : Type}.

(** [Array.prototype.slice(start)] with the end left out: a negative
    [start] counts from the end and is clamped at the first element, a
    positive one is clamped at the length. *)
Definition Array_slice (start : Z) (arr : list A) : list A :=
  let len := Z.of_nat (length arr) in
  let k := if start <? 0 then Z.max (len + start) 0 else Z.min start len in
  drop (Z.to_nat k) arr.

(** [Array.prototype.filter] with a callback that reads the element and
    its index; [i] is the index of the head of [arr] in the whole array. *)
Fixpoint Array_filter_from (i : nat) (f : A -> Z -> bool) (arr : list A) : list A :=
  match arr with
  | [] => []
  | x :: rest =>
      if f x (Z.of_nat i)
      then x :: Array_filter_from (S i) f rest
      else Array_filter_from (S i) f rest
  end.

Definition Array_filter (f : A -> Z -> bool) (arr : list A) : list A :=
  Array_filter_from 0 f arr.
End Arrays.

(** ** The expiring cache: [class DataCache] *)

Record CacheEntry (T : Type) : Type := mkCacheEntry {
  data : T;
  timestamp : Z;
  ttl : Z
}.
Arguments mkCacheEntry {T}.
Arguments data {T}.
Arguments timestamp {T}.
Arguments ttl {T}.

Module DataCache.
Section Methods.
Context {T : Type}.

(** The private field [cache = new Map<string, CacheEntry<any>>()]. *)
Local Abbreviation t := (gmap string (CacheEntry T)).

Definition new : t := ∅.

(** [set(key, data, ttlMinutes = 60)]; [now] is the [Date.now()] read
    inside.  A call that leaves [ttlMinutes] out passes [None]. *)
Definition set (cache : t) (now : Z) (key : string) (d : T)
    (ttlMinutes : option Z) : t :=
  <[ key := {| data := d;
               timestamp := now;
               ttl := default 60 ttlMinutes * 60 * 1000 |} ]> cache.

(** [get(key)]: the result is [None] for the source's [null]; the second
    component is the map after the call. *)
Definition get (cache : t) (now : Z) (key : string) : option T * t :=
  match cache !! key with
  | None => (None, cache)
  | Some entry =>
      if now - timestamp entry >? ttl entry
      then (None, delete key cache)
      else (Some (data entry), cache)
  end.

Definition has (cache : t) (now : Z) (key : string) : bool * t :=
  match cache !! key with
  | None => (false, cache)
  | Some entry =>
      if now - timestamp entry >? ttl entry
      then (false, delete key cache)
      else (true, cache)
  end.

Definition clear (cache : t) : t := ∅.

Definition size (cache : t) : nat := base.size cache.
End Methods.
End DataCache.

(** ** The count-based reducer: [optimizeDataForTimeWindow] *)

(** What a slot of the untyped cache can hold, as far as the test
    [cached && Array.isArray(cached)] can tell: an array (truthy, also
    when empty) or anything else. *)
Inductive CachedValue (A : Type) : Type :=
  | IsArray (arr : list A)
  | NotArray.
Arguments IsArray {A}.
Arguments NotArray {A}.

Section Optimize.
Context {A : Type}.

(** The template literal [`optimized_${timeWindow}_${data.length}`]. *)
Definition cacheKey (timeWindow : string) (len : nat) : string :=
  "optimized_" +:+ timeWindow +:+ "_" +:+ pretty len.

(** Lines 96-110: the branches on the label and the length. *)
Definition optimizedData (arr : list A) (timeWindow : string) : list A :=
  let len := Z.of_nat (length arr) in
  if String.eqb timeWindow "1W" && (len >? 7) then
    Array_slice (-7) arr
  else if String.eqb timeWindow "1M" && (len >? 60) then
    Array_slice (-30) arr
  else if String.eqb timeWindow "3M" && (len >? 180) then
    Array_filter (fun _ index => (index mod 2 =? 0) || (index >=? len - 90)) arr
  else if String.eqb timeWindow "1Y" && (len >? 365) then
    Array_filter (fun _ index => (index mod 7 =? 0) || (index >=? len - 365)) arr
  else arr.

(** The whole function.  [dataCache] is the module-wide instance, passed
    in and returned; [now_get] and [now_set] are the clock readings of
    [dataCache.get] and [dataCache.set].  The parameter is typed
    [any[]], so the [!data] test only ever sees an array and is false. *)
Definition optimizeDataForTimeWindow
    (dataCache : gmap string (CacheEntry (CachedValue A)))
    (now_get now_set : Z) (arr : list A) (timeWindow : string)
    : list A * gmap string (CacheEntry (CachedValue A)) :=
  if String.eqb timeWindow "ALL" || (length arr =? 0)%nat then
    (arr, dataCache)
  else
    let key := cacheKey timeWindow (length arr) in
    match DataCache.get dataCache now_get key with
    | (Some (IsArray cached), cache1) => (cached, cache1)
    | (_, cache1) =>
        let result := optimizedData arr timeWindow in
        (result, DataCache.set cache1 now_set key (IsArray result) (Some 30))
    end.
End Optimize.

(** ** Time values of ECMAScript [Date] (ECMA-262, Date objects)

    A time value is a number of milliseconds since the epoch, or [NaN];
    [option Z] with [None] for [NaN].  The day and calendar functions are
    the ones the language specification defines, written on [Z] with
    floor division. *)

Module JSDate.

Definition msPerDay : Z := 86400000.

Definition Day (t : Z) : Z := t / msPerDay.
Definition TimeWithinDay (t : Z) : Z := t mod msPerDay.

Definition DaysInYear (y : Z) : Z :=
  if negb (y mod 4 =? 0) then 365
  else if negb (y mod 100 =? 0) then 366
  else if negb (y mod 400 =? 0) then 365
  else 366.

Definition DayFromYear (y : Z) : Z :=
  365 * (y - 1970) + (y - 1969) / 4 - (y - 1901) / 100 + (y - 1601) / 400.

Definition TimeFromYear (y : Z) : Z := msPerDay * DayFromYear y.

(** The largest [y] with [DayFromYear y <= d]: an estimate from the mean
    length of a year, moved by at most one year
    (see [YearFromDay_spec]). *)
Definition YearFromDay (d : Z) : Z :=
  let y := 1970 + (400 * d) / 146097 in
  if DayFromYear y >? d then y - 1
  else if DayFromYear (y + 1) <=? d then y + 1
  else y.

Definition YearFromTime (t : Z) : Z := YearFromDay (Day t).

Definition InLeapYear (t : Z) : Z :=
  if DaysInYear (YearFromTime t) =? 366 then 1 else 0.

Definition DayWithinYear (t : Z) : Z :=
  Day t - DayFromYear (YearFromTime t).

Definition MonthFromTime (t : Z) : Z :=
  let d := DayWithinYear t in
  let leap := InLeapYear t in
  if d <? 31 then 0
  else if d <? 59 + leap then 1
  else if d <? 90 + leap then 2
  else if d <? 120 + leap then 3
  else if d <? 151 + leap then 4
  else if d <? 181 + leap then 5
  else if d <? 212 + leap then 6
  else if d <? 243 + leap then 7
  else if d <? 273 + leap then 8
  else if d <? 304 + leap then 9
  else if d <? 334 + leap then 10
  else 11.

Definition DateFromTime (t : Z) : Z :=
  let d := DayWithinYear t in
  let leap := InLeapYear t in
  match MonthFromTime t with
  | 0 => d + 1
  | 1 => d - 30
  | 2 => d - 58 - leap
  | 3 => d - 89 - leap
  | 4 => d - 119 - leap
  | 5 => d - 150 - leap
  | 6 => d - 180 - leap
  | 7 => d - 211 - leap
  | 8 => d - 242 - leap
  | 9 => d - 272 - leap
  | 10 => d - 303 - leap
  | _ => d - 333 - leap
  end.

(** Days from the first of January to the first of month [mn] (0-11). *)
Definition DaysBeforeMonth (mn leap : Z) : Z :=
  match mn with
  | 0 => 0
  | 1 => 31
  | 2 => 59 + leap
  | 3 => 90 + leap
  | 4 => 120 + leap
  | 5 => 151 + leap
  | 6 => 181 + leap
  | 7 => 212 + leap
  | 8 => 243 + leap
  | 9 => 273 + leap
  | 10 => 304 + leap
  | _ => 334 + leap
  end.

(** [MakeDay(year, month, date)]: months outside 0-11 carry into the
    year, and the date counts on from the first of the month, so that a
    date below 1 or beyond the month's end rolls into the neighbouring
    months. *)
Definition MakeDay (year month date : Z) : Z :=
  let ym := year + month / 12 in
  let mn := month mod 12 in
  let leap := if DaysInYear ym =? 366 then 1 else 0 in
  DayFromYear ym + DaysBeforeMonth mn leap + date - 1.

Definition MakeDate (day time : Z) : Z := day * msPerDay + time.

Definition TimeClip (t : Z) : option Z :=
  if Z.abs t >? 8640000000000000 then None else Some t.

(** Relational comparison [a >= b] of two [Date] objects: both become
    their time values, and the result is false when either is [NaN]. *)
Definition ge (a b : option Z) : bool :=
  match a, b with
  | Some x, Some y => y <=? x
  | _, _ => false
  end.

Section Local.
(** The host's offset of local time from UTC, [LocalTZA(t, isUTC)]. *)
Variable LocalTZA : Z -> bool -> Z.

Definition LocalTime (t : Z) : Z := t + LocalTZA t true.
Definition UTC (t : Z) : Z := t - LocalTZA t false.

Definition getFullYear (t : Z) : Z := YearFromTime (LocalTime t).
Definition getMonth (t : Z) : Z := MonthFromTime (LocalTime t).
Definition getDate (t : Z) : Z := DateFromTime (LocalTime t).

(** The setters, called with one argument on a date whose time value
    is [t]; the result is the date's new time value. *)
Definition setFullYear (t : Z) (year : Z) : option Z :=
  let lt := LocalTime t in
  TimeClip (UTC (MakeDate (MakeDay year (MonthFromTime lt) (DateFromTime lt))
                          (TimeWithinDay lt))).

Definition setMonth (t : Z) (month : Z) : option Z :=
  let lt := LocalTime t in
  TimeClip (UTC (MakeDate (MakeDay (YearFromTime lt) month (DateFromTime lt))
                          (TimeWithinDay lt))).

Definition setDate (t : Z) (date : Z) : option Z :=
  let lt := LocalTime t in
  TimeClip (UTC (MakeDate (MakeDay (YearFromTime lt) (MonthFromTime lt) date)
                          (TimeWithinDay lt))).
End Local.

End JSDate.

(** ** The date-cutoff reducer: [filterDataByTimeWindow] *)

(** [type TimeWindow = 'ALL' | '3Y' | '1Y' | '6M' | '3M' | '1M' | '1W'] *)
Inductive TimeWindow : Type :=
  | ALL | TW_3Y | TW_1Y | TW_6M | TW_3M | TW_1M | TW_1W.

#[global] Instance TimeWindow_eq_dec : EqDecision TimeWindow.
Proof. solve_decision. Defined.

(** A point of a series: the [date] string that the reducer reads, and the
    other fields (price, tvl, apy, ...) which it only carries along. *)
Record TimeSeriesPoint (M : Type) : Type := mkPoint {
  date : string;
  metrics : M
}.
Arguments mkPoint {M}.
Arguments date {M}.
Arguments metrics {M}.

Section Filter.
(** The host: its time zone, and what [new Date(s)] makes of a string
    (its time value, [None] for an invalid date). *)
Variable LocalTZA : Z -> bool -> Z.
Variable Date_parse : string -> option Z.
Context {M : Type}.

(** The [switch]: [now] is the first [new Date()], [start] the second
    one, which the setters then move.  No case matches ['ALL'], which has
    returned before. *)
Definition cutoffDate (now start : Z) (timeWindow : TimeWindow) : option Z :=
  match timeWindow with
  | ALL => Some start
  | TW_3Y => JSDate.setFullYear LocalTZA start (JSDate.getFullYear LocalTZA now - 3)
  | TW_1Y => JSDate.setFullYear LocalTZA start (JSDate.getFullYear LocalTZA now - 1)
  | TW_6M => JSDate.setMonth LocalTZA start (JSDate.getMonth LocalTZA now - 6)
  | TW_3M => JSDate.setMonth LocalTZA start (JSDate.getMonth LocalTZA now - 3)
  | TW_1M => JSDate.setMonth LocalTZA start (JSDate.getMonth LocalTZA now - 1)
  | TW_1W => JSDate.setDate LocalTZA start (JSDate.getDate LocalTZA now - 7)
  end.

(** As in [optimizeDataForTimeWindow], [data] is typed [any[]] and the
    [!data] test is false on every array. *)
Definition filterDataByTimeWindow (now start : Z)
    (arr : list (TimeSeriesPoint M)) (timeWindow : TimeWindow)
    : list (TimeSeriesPoint M) :=
  if match timeWindow with ALL => true | _ => false end
     || (length arr =? 0)%nat
  then arr
  else
    let cutoff := cutoffDate now start timeWindow in
    List.filter (fun item => JSDate.ge (Date_parse (date item)) cutoff) arr.

(** The latest valid date of a series, for the statements below. *)
Definition latestDate (arr : list (TimeSeriesPoint M)) : option Z :=
  fold_right
    (fun item acc =>
       match Date_parse (date item), acc with
       | Some d, Some a => Some (Z.max d a)
       | Some d, None => Some d
       | None, _ => acc
       end)
    None arr.
End Filter.

(** ** A concrete host and a daily series, for the worked example *)

Module ISO.

Definition digit (c : ascii) : option Z :=
  let n := Z.of_N (N_of_ascii c) in
  if (48 <=? n) && (n <=? 57) then Some (n - 48) else None.

(** [Date.parse] on the date-only form [YYYY-MM-DD], which the language
    specification reads as midnight UTC.  Month 01-12 and day 01-31 are
    accepted; a day past the end of its month rolls over as in V8 (other
    engines give [NaN] there).  Every other string is left invalid. *)
Definition parse (s : string) : option Z :=
  match s with
  | String y1 (String y2 (String y3 (String y4 (String "-"
      (String m1 (String m2 (String "-"
        (String d1 (String d2 EmptyString))))))))) =>
      a ← digit y1; b ← digit y2; c ← digit y3; d ← digit y4;
      e ← digit m1; f ← digit m2; g ← digit d1; h ← digit d2;
      let year := 1000 * a + 100 * b + 10 * c + d in
      let month := 10 * e + f in
      let day := 10 * g + h in
      if (1 <=? month) && (month <=? 12) && (1 <=? day) && (day <=? 31)
      then JSDate.TimeClip (JSDate.MakeDate (JSDate.MakeDay year (month - 1) day) 0)
      else None
  | _ => None
  end.

Definition pad2 (n : Z) : string :=
  String (ascii_of_N (Z.to_N (48 + n / 10)))
    (String (ascii_of_N (Z.to_N (48 + n mod 10))) EmptyString).

(** The [YYYY-MM-DD] string of day number [day] (years 0000-9999). *)
Definition format (day : Z) : string :=
  let t := day * JSDate.msPerDay in
  let y := JSDate.YearFromTime t in
  pad2 (y / 100) +:+ pad2 (y mod 100) +:+ "-"
    +:+ pad2 (JSDate.MonthFromTime t + 1) +:+ "-"
    +:+ pad2 (JSDate.DateFromTime t).

(** A host whose local time is a fixed [offset] (ms) from UTC. *)
Definition fixedOffset (offset : Z) : Z -> bool -> Z := fun _ _ => offset.

End ISO.

(** [n] consecutive daily points, the last one on day number [last]; the
    payload of a point is its index. *)
Definition dailySeries (last : Z) (n : nat) : list (TimeSeriesPoint Z) :=
  map (fun i => {| date := ISO.format (last - Z.of_nat n + 1 + Z.of_nat i);
                   metrics := Z.of_nat i |})
      (seq 0 n).

(** The worked example: 400 consecutive daily points ending 2025-09-01
    (day number 20332), and the instant [new Date("2025-09-02")], midnight
    UTC of that day, as the clock reading. *)
Definition exampleSeries : list (TimeSeriesPoint Z) := dailySeries 20332 400.
Definition exampleNow : Z := 1756771200000.

(** ** The axis labels of the charts: [tickFormatter]

    The X axes of [TokenChart] (FourTokenCharts.tsx) and of the pool
    charts (PoolCharts.tsx) label a tick with the month and the year of
    its date, and only every so many ticks.  The copies differ in one
    constant, the [divisor] of [Math.floor(totalTicks / 5)], which is 4
    in the pool charts. *)

Definition months : list string :=
  ["Jan"; "Feb"; "Mar"; "Apr"; "May"; "Jun";
   "Jul"; "Aug"; "Sep"; "Oct"; "Nov"; "Dec"].

(** [String.prototype.slice(-k)]: the last [k] characters, or the whole
    string when it is shorter. *)
Definition String_slice_last (k : nat) (s : string) : string :=
  String.substring (String.length s - k) k s.

Section Ticks.
Variable LocalTZA : Z -> bool -> Z.
Variable Date_parse : string -> option Z.

(** [value] is the tick's date string, [index] its position and
    [totalTicks] is [chartData.length].  On an invalid date [getMonth()]
    and [getFullYear()] are [NaN]: the month read from the table is
    [undefined] and the year text is the end of ["NaN"]. *)
Definition tickFormatter (divisor : Z) (totalTicks : nat)
    (value : string) (index : Z) : string :=
  let date := Date_parse value in
  let interval := Z.max 1 (Z.of_nat totalTicks / divisor) in
  if (Z.rem index interval =? 0) || (index =? 0)
     || (index =? Z.of_nat totalTicks - 1)
  then
    let month :=
      match date with
      | Some t => nth (Z.to_nat (JSDate.getMonth LocalTZA t)) months "undefined"
      | None => "undefined"
      end in
    let year :=
      match date with
      | Some t => String_slice_last 2 (pretty (JSDate.getFullYear LocalTZA t))
      | None => String_slice_last 2 "NaN"
      end in
    month +:+ " '" +:+ year
  else "".

(** The positions of a chart of [totalTicks] points that get a label,
    [values i] being the date of point [i]. *)
Definition labelledTicks (divisor : Z) (values : nat -> string)
    (totalTicks : nat) : list nat :=
  List.filter
    (fun i => negb (String.eqb
                      (tickFormatter divisor totalTicks (values i) (Z.of_nat i))
                      ""))
    (seq 0 totalTicks).
End Ticks.

(** ** Preparing chart data: [precomputeChartData] and [formatCurrency]

    The pages run every series through [precomputeChartData]
    (lib/cache.ts) once, when the data is loaded; the pool charts then fill
    in [tvl] again before they filter (PoolCharts.tsx).  JavaScript's
    numbers stay abstract here: the type, its literals, its truth value,
    its comparisons, its arithmetic and [toFixed] are parameters, and
    nothing is assumed of them but what a statement says. *)

Section ChartData.
Variable number : Type.
Variable num : Z -> number.
Variable toBoolean : number -> bool.
Variable gt ge : number -> number -> bool.
Variable sub div mul : number -> number -> number.
Variable toFixed : number -> Z -> string.

(** The fields of a point besides its date.  A field that the object
    does not have ([undefined]) is [None]; [others] stands for the fields
    that the code only copies. *)
Record PoolFields (M : Type) : Type := mkPoolFields {
  tvlUsd : option number;
  tvl : option number;
  apy : option number;
  tvlChange : option number;
  formattedTvl : option string;
  formattedApy : option string;
  others : M
}.
Arguments mkPoolFields {M}.
Arguments tvlUsd {M}.
Arguments tvl {M}.
Arguments apy {M}.
Arguments tvlChange {M}.
Arguments formattedTvl {M}.
Arguments formattedApy {M}.
Arguments others {M}.

Context {M : Type}.

(** [item.tvlUsd || item.tvl || 0] *)
Definition tvlOrZero (item : TimeSeriesPoint (PoolFields M)) : number :=
  let second :=
    match tvl (metrics item) with
    | Some y => if toBoolean y then y else num 0
    | None => num 0
    end in
  match tvlUsd (metrics item) with
  | Some x => if toBoolean x then x else second
  | None => second
  end.

Definition formatCurrency (value : number) : string :=
  if ge value (num 1000000000)
  then "$" +:+ toFixed (div value (num 1000000000)) 1 +:+ "B"
  else if ge value (num 1000000)
  then "$" +:+ toFixed (div value (num 1000000)) 1 +:+ "M"
  else if ge value (num 1000)
  then "$" +:+ toFixed (div value (num 1000)) 1 +:+ "K"
  else "$" +:+ toFixed value 0.

(** The callback of [timeseries.map]: [timeseries] is the array being
    mapped, in which the callback looks up the previous point. *)
Definition precomputePoint (timeseries : list (TimeSeriesPoint (PoolFields M)))
    (index : nat) (item : TimeSeriesPoint (PoolFields M))
    : TimeSeriesPoint (PoolFields M) :=
  let tvl_ := tvlOrZero item in
  let prevItem :=
    if (0 <? index)%nat then timeseries !! (index - 1)%nat else None in
  let prevTvl :=
    match prevItem with
    | Some prev => tvlOrZero prev
    | None => tvl_
    end in
  {| date := date item;
     metrics :=
       {| tvlUsd := tvlUsd (metrics item);
          tvl := Some tvl_;
          apy := apy (metrics item);
          tvlChange :=
            Some (if gt prevTvl (num 0)
                  then mul (div (sub tvl_ prevTvl) prevTvl) (num 100)
                  else num 0);
          formattedTvl := Some (formatCurrency tvl_);
          formattedApy :=
            Some ((match apy (metrics item) with
                   | Some a =>
                       let s := toFixed a 1 in
                       if String.eqb s "" then "0.0" else s
                   | None => "0.0"
                   end) +:+ "%");
          others := others (metrics item) |} |}.

Definition precomputeChartData (timeseries : list (TimeSeriesPoint (PoolFields M)))
    : list (TimeSeriesPoint (PoolFields M)) :=
  if (length timeseries =? 0)%nat then timeseries
  else imap (precomputePoint timeseries) timeseries.

(** [PoolChart]: [data.timeseries.map(item => ({...item, tvl: ...}))] *)
Definition mappedTimeseries (timeseries : list (TimeSeriesPoint (PoolFields M)))
    : list (TimeSeriesPoint (PoolFields M)) :=
  map (fun item =>
         {| date := date item;
            metrics :=
              {| tvlUsd := tvlUsd (metrics item);
                 tvl := Some (tvlOrZero item);
                 apy := apy (metrics item);
                 tvlChange := tvlChange (metrics item);
                 formattedTvl := formattedTvl (metrics item);
                 formattedApy := formattedApy (metrics item);
                 others := others (metrics item) |} |})
      timeseries.
End ChartData.
Arguments mkPoolFields {number M}.
Arguments tvlUsd {number M}.
Arguments tvl {number M}.
Arguments apy {number M}.
Arguments tvlChange {number M}.
Arguments formattedTvl {number M}.
Arguments formattedApy {number M}.
Arguments others {number M}.

(** ** Vocabulary of the statements *)

(** A call of [optimizeDataForTimeWindow] is a memo hit when
    [dataCache.get] hands back an array. *)
Definition memoHit {A : Type}
    (dataCache : gmap string (CacheEntry (CachedValue A)))
    (now : Z) (key : string) : bool :=
  match fst (DataCache.get dataCache now key) with
  | Some (IsArray _) => true
  | _ => false
  end.

(** The calendar offset of each window, as (years, months, days). *)
Definition windowOffset (timeWindow : TimeWindow) : Z * Z * Z :=
  match timeWindow with
  | ALL => (0, 0, 0)
  | TW_3Y => (3, 0, 0)
  | TW_1Y => (1, 0, 0)
  | TW_6M => (0, 6, 0)
  | TW_3M => (0, 3, 0)
  | TW_1M => (0, 1, 0)
  | TW_1W => (0, 0, 7)
  end.

(** The current date minus a window's offset: the year, month and day of
    the local date of [now] lowered by the offset, the time of day kept,
    and the whole read back as a time value ([MakeDay] resolves a month
    or day that leaves its range). *)
Definition offsetCutoff (LocalTZA : Z -> bool -> Z) (now : Z)
    (timeWindow : TimeWindow) : option Z :=
  let lt := JSDate.LocalTime LocalTZA now in
  let '(years, months, days) := windowOffset timeWindow in
  JSDate.TimeClip
    (JSDate.UTC LocalTZA
       (JSDate.MakeDate
          (JSDate.MakeDay (JSDate.YearFromTime lt - years)
                          (JSDate.MonthFromTime lt - months)
                          (JSDate.DateFromTime lt - days))
          (JSDate.TimeWithinDay lt))).

(** [c] does not occur in [s]. *)
Fixpoint free_of (c : ascii) (s : string) : Prop :=
  match s with
  | EmptyString => True
  | String a rest => a ≠ c ∧ free_of c rest
  end.

(** The number of points the branches of [optimizeDataForTimeWindow]
    return for [n] points: 7, 30, the last 90 plus every second of the
    others, the last 365 plus every seventh of the others, or all. *)
Definition optimizedLength (timeWindow : string) (n : Z) : Z :=
  if String.eqb timeWindow "1W" && (n >? 7) then 7
  else if String.eqb timeWindow "1M" && (n >? 60) then 30
  else if String.eqb timeWindow "3M" && (n >? 180) then 90 + (n - 89) / 2
  else if String.eqb timeWindow "1Y" && (n >? 365) then 365 + (n - 359) / 7
  else n.

(** How many days before the local day of [lt] the window's offset
    leads. *)
Definition daysBack (lt : Z) (timeWindow : TimeWindow) : Z :=
  let '(years, months, days) := windowOffset timeWindow in
  JSDate.Day lt
  - JSDate.MakeDay (JSDate.YearFromTime lt - years)
                   (JSDate.MonthFromTime lt - months)
                   (JSDate.DateFromTime lt - days).

(** The fewest and the most days a window can reach back, over all
    dates of the calendar. *)
Definition windowDays (timeWindow : TimeWindow) : Z * Z :=
  match timeWindow with
  | ALL => (0, 0)
  | TW_3Y => (1095, 1096)
  | TW_1Y => (365, 366)
  | TW_6M => (181, 184)
  | TW_3M => (89, 92)
  | TW_1M => (28, 31)
  | TW_1W => (7, 7)
  end.

(** The windows from the narrowest to the widest. *)
Definition width (timeWindow : TimeWindow) : nat :=
  match timeWindow with
  | TW_1W => 0
  | TW_1M => 1
  | TW_3M => 2
  | TW_6M => 3
  | TW_1Y => 4
  | TW_3Y => 5
  | ALL => 6
  end.

(** The windows "3Y" to "1M" counted in months. *)
Definition monthsBack (timeWindow : TimeWindow) : Z :=
  let '(years, months, _) := windowOffset timeWindow in
  12 * years + months.

(** The month of a time value, counted from January of year 0. *)
Definition monthIndex (t : Z) : Z :=
  12 * JSDate.YearFromTime t + JSDate.MonthFromTime t.

(** The number of days of month [month] (0-11) of [year]. *)
Definition daysInMonth (year month : Z) : Z :=
  match month with
  | 1 => if JSDate.DaysInYear year =? 366 then 29 else 28
  | 3 | 5 | 8 | 10 => 30
  | _ => 31
  end.

(** The local calendar date of a clock reading: year, month (0-11) and
    day of the month, as the getters give them. *)
Definition localDate (LocalTZA : Z -> bool -> Z) (t : Z) : Z * Z * Z :=
  (JSDate.getFullYear LocalTZA t, JSDate.getMonth LocalTZA t,
   JSDate.getDate LocalTZA t).

(** * Properties *)

(** Case analysis on every condition of a cascade of [if]s. *)
Ltac case_ifs :=
  repeat match goal with
         | |- context [if ?b then _ else _] => destruct b eqn:?
         end.

(** ** The cache *)

Section CacheFacts.
Context {T : Type}.
Implicit Types (cache : gmap string (CacheEntry T)) (key : string).

Lemma get_absent cache now key :
  cache !! key = None → DataCache.get cache now key = (None, cache).
Proof. intros H. unfold DataCache.get. by rewrite H. Qed.

Lemma get_live cache now key entry :
  cache !! key = Some entry →
  now - timestamp entry <= ttl entry →
  DataCache.get cache now key = (Some (data entry), cache).
Proof.
  intros H Hle. unfold DataCache.get. rewrite H.
  destruct (Z.gtb_spec (now - timestamp entry) (ttl entry)); [lia | done].
Qed.

Lemma get_expired cache now key entry :
  cache !! key = Some entry →
  ttl entry < now - timestamp entry →
  DataCache.get cache now key = (None, delete key cache).
Proof.
  intros H Hlt. unfold DataCache.get. rewrite H.
  destruct (Z.gtb_spec (now - timestamp entry) (ttl entry)); [done | lia].
Qed.

Lemma lookup_set cache t0 key v m :
  DataCache.set cache t0 key v m !! key
  = Some {| data := v; timestamp := t0; ttl := default 60 m * 60 * 1000 |}.
Proof. unfold DataCache.set. apply lookup_insert_eq. Qed.

(** [set] overwrites: whatever was stored under the key before is gone. *)
Lemma set_set cache t0 t1 key v w m n :
  DataCache.set (DataCache.set cache t0 key v m) t1 key w n
  = DataCache.set cache t1 key w n.
Proof. unfold DataCache.set. apply insert_insert_eq. Qed.

(** [get] at [now] after a [set] at [t0]: the entry is served up to and
    including an age equal to the TTL, and evicted after that. *)
Lemma get_set cache t0 now key v m :
  DataCache.get (DataCache.set cache t0 key v m) now key
  = if now - t0 >? default 60 m * 60 * 1000
    then (None, delete key cache)
    else (Some v, DataCache.set cache t0 key v m).
Proof.
  unfold DataCache.get. rewrite lookup_set. simpl.
  destruct (_ >? _); [| done].
  unfold DataCache.set. by rewrite delete_insert_eq.
Qed.

(** [get] right after [set], on the same clock reading, for a TTL that
    is not negative. *)
Lemma get_set_same cache t0 key v m :
  0 <= default 60 m →
  DataCache.get (DataCache.set cache t0 key v m) t0 key
  = (Some v, DataCache.set cache t0 key v m).
Proof.
  intros Hm. rewrite get_set.
  destruct (Z.gtb_spec (t0 - t0) (default 60 m * 60 * 1000)); [lia | done].
Qed.

(** C2, as the code has it: an entry is served while its age is at most
    its TTL (the stored value comes back and the cache is untouched), and
    once its age exceeds the TTL [get] answers [null] and deletes it. *)
Theorem get_serves_until_ttl_exceeded cache now key entry :
  cache !! key = Some entry →
  (now - timestamp entry <= ttl entry →
     DataCache.get cache now key = (Some (data entry), cache))
  ∧ (ttl entry < now - timestamp entry →
     DataCache.get cache now key = (None, delete key cache)
     ∧ delete key cache !! key = None).
Proof.
  intros H. split.
  - by apply get_live.
  - intros Hlt. split; [by apply get_expired with entry | apply lookup_delete_eq].
Qed.

(** C8: [has] answers true exactly when [get] at the same moment hands
    back a stored value, and leaves the cache in the state [get] leaves
    it in (so it evicts the same expired entry). *)
Theorem has_agrees_with_get cache now key :
  DataCache.has cache now key
  = (bool_decide (is_Some (fst (DataCache.get cache now key))),
     snd (DataCache.get cache now key)).
Proof.
  unfold DataCache.has, DataCache.get.
  destruct (cache !! key) as [entry|]; [| done].
  by destruct (_ >? _).
Qed.
End CacheFacts.

(** Witness of C2's theorem: an entry of one minute, read at the age of
    one minute and one millisecond later. *)
Lemma get_serves_until_ttl_exceeded_witness :
  let cache := DataCache.set (∅ : gmap string (CacheEntry Z)) 0 "k" 42 (Some 1) in
  DataCache.get cache 60000 "k" = (Some 42, cache)
  ∧ DataCache.get cache 60001 "k" = (None, delete "k" cache).
Proof.
  intros cache.
  pose proof (get_serves_until_ttl_exceeded cache 60000 "k" _ (lookup_set _ _ _ _ _)) as [H1 _].
  pose proof (get_serves_until_ttl_exceeded cache 60001 "k" _ (lookup_set _ _ _ _ _)) as [_ H2].
  split.
  - apply H1. simpl. lia.
  - apply H2. simpl. lia.
Defined.

(** C2 as the spec words it fails on the boundary: an entry whose age
    equals its TTL (so the age is [>=] the TTL) is still served, and it
    stays in the cache. *)
Lemma get_at_ttl_not_absent :
  let cache := DataCache.set (∅ : gmap string (CacheEntry Z)) 0 "k" 42 (Some 1) in
  cache !! "k" = Some {| data := 42; timestamp := 0; ttl := 60000 |}
  ∧ 60000 - 0 >= 60000
  ∧ fst (DataCache.get cache 60000 "k") = Some 42
  ∧ fst (DataCache.get cache 60000 "k") ≠ None
  ∧ snd (DataCache.get cache 60000 "k") !! "k" ≠ None.
Proof.
  intros cache. subst cache. rewrite get_set. simpl.
  rewrite lookup_set. repeat split; done.
Qed.

(** ** Arrays *)

Section ArrayFacts.
Context {A : Type}.
Implicit Types (arr l : list A) (f g : A → Z → bool) (i : nat).

Lemma Array_slice_last (k : nat) arr :
  (0 < k)%nat →
  Array_slice (- Z.of_nat k) arr = drop (length arr - k) arr.
Proof.
  intros Hk. unfold Array_slice.
  destruct (Z.ltb_spec (- Z.of_nat k) 0) as [_|]; [| lia].
  f_equal. lia.
Qed.

Lemma Array_slice_sublist start arr : Array_slice start arr `sublist_of` arr.
Proof. apply sublist_drop. Qed.

Lemma Array_filter_from_sublist i f l : Array_filter_from i f l `sublist_of` l.
Proof.
  revert i. induction l as [|x l IH]; intros i; simpl.
  - constructor.
  - destruct (f x (Z.of_nat i)); [apply sublist_skip | apply sublist_cons]; apply IH.
Qed.

(** The callback's verdicts only matter at the indices that occur. *)
Lemma Array_filter_from_ext i f g l :
  (∀ x (j : nat), (i ≤ j < i + length l)%nat → f x (Z.of_nat j) = g x (Z.of_nat j)) →
  Array_filter_from i f l = Array_filter_from i g l.
Proof.
  revert i. induction l as [|x l IH]; intros i Hfg; simpl; [done |].
  rewrite (Hfg x i) by (simpl; lia).
  rewrite (IH (S i)) by (intros y j Hj; apply Hfg; simpl; lia).
  done.
Qed.

Lemma Array_filter_from_app i f l1 l2 :
  Array_filter_from i f (l1 ++ l2)
  = Array_filter_from i f l1 ++ Array_filter_from (i + length l1) f l2.
Proof.
  revert i. induction l1 as [|x l1 IH]; intros i; simpl.
  - by rewrite Nat.add_0_r.
  - rewrite IH. replace (S i + length l1)%nat with (i + S (length l1))%nat by lia.
    by destruct (f x (Z.of_nat i)).
Qed.

Lemma Array_filter_from_all i f l :
  (∀ x (j : nat), (i ≤ j < i + length l)%nat → f x (Z.of_nat j) = true) →
  Array_filter_from i f l = l.
Proof.
  revert i. induction l as [|x l IH]; intros i Hf; simpl; [done |].
  rewrite (Hf x i) by (simpl; lia).
  f_equal. apply IH. intros y j Hj. apply Hf. simpl; lia.
Qed.

Lemma Array_filter_from_none i f l :
  (∀ x (j : nat), (i ≤ j < i + length l)%nat → f x (Z.of_nat j) = false) →
  Array_filter_from i f l = [].
Proof.
  revert i. induction l as [|x l IH]; intros i Hf; simpl; [done |].
  rewrite (Hf x i) by (simpl; lia).
  apply IH. intros y j Hj. apply Hf. simpl; lia.
Qed.

(** Keeping the even indices keeps at most every other element. *)
Lemma Array_filter_from_even_length i l :
  2 * Z.of_nat (length (Array_filter_from i (λ _ index, index mod 2 =? 0) l))
    + Z.of_nat i mod 2
  <= Z.of_nat (length l) + 1.
Proof.
  revert i. induction l as [|x l IH]; intros i; simpl length.
  - simpl. Z.div_mod_to_equations. lia.
  - specialize (IH (S i)). simpl.
    destruct (Z.eqb_spec (Z.of_nat i mod 2) 0); simpl length;
      rewrite ?Nat2Z.inj_succ in *; Z.div_mod_to_equations; lia.
Qed.
End ArrayFacts.

(** ** The count-based reducer *)

Section OptimizeFacts.
Context {A : Type}.
Implicit Types (arr : list A) (timeWindow : string)
  (dataCache : gmap string (CacheEntry (CachedValue A))).

(** Splitting off the last [k] elements. *)
Lemma split_tail (k : nat) arr :
  (k ≤ length arr)%nat →
  ∃ l1 l2, arr = l1 ++ l2 ∧ length l2 = k ∧ l2 = drop (length arr - k) arr.
Proof.
  intros Hk. exists (take (length arr - k) arr), (drop (length arr - k) arr).
  split; [by rewrite take_drop |]. split; [| done].
  rewrite length_drop. lia.
Qed.

(** A callback [p index || index >= c] on an array whose first [c]
    elements are [l1]: [p] decides on [l1], the rest is kept whole. *)
Lemma Array_filter_head_tail (p : Z → bool) (c : Z) (l1 l2 : list A) :
  c = Z.of_nat (length l1) →
  Array_filter (λ _ index, p index || (index >=? c)) (l1 ++ l2)
  = Array_filter_from 0 (λ _ index, p index) l1 ++ l2.
Proof.
  intros ->. unfold Array_filter. rewrite Array_filter_from_app. f_equal.
  - apply Array_filter_from_ext. intros _ j Hj.
    destruct (Z.geb_spec (Z.of_nat j) (Z.of_nat (length l1))); [lia |].
    apply orb_false_r.
  - apply Array_filter_from_all. intros _ j Hj.
    destruct (Z.geb_spec (Z.of_nat j) (Z.of_nat (length l1))); [| lia].
    apply orb_true_r.
Qed.

Lemma optimizedData_sublist arr timeWindow :
  optimizedData arr timeWindow `sublist_of` arr.
Proof.
  unfold optimizedData, Array_filter.
  repeat destruct (_ && _);
    auto using Array_slice_sublist, Array_filter_from_sublist.
Qed.

(** No branch fires: the array comes back as it is. *)
Lemma optimizedData_short arr timeWindow :
  (timeWindow = "1W" → (length arr ≤ 7)%nat) →
  (timeWindow = "1M" → (length arr ≤ 60)%nat) →
  (timeWindow = "3M" → (length arr ≤ 180)%nat) →
  (timeWindow = "1Y" → (length arr ≤ 365)%nat) →
  optimizedData arr timeWindow = arr.
Proof.
  intros H1 H2 H3 H4. unfold optimizedData.
  destruct (String.eqb_spec timeWindow "1W") as [E|_]; simpl.
  { destruct (Z.gtb_spec (Z.of_nat (length arr)) 7); [specialize (H1 E); lia |].
    subst. done. }
  destruct (String.eqb_spec timeWindow "1M") as [E|_]; simpl.
  { destruct (Z.gtb_spec (Z.of_nat (length arr)) 60); [specialize (H2 E); lia |].
    subst. done. }
  destruct (String.eqb_spec timeWindow "3M") as [E|_]; simpl.
  { destruct (Z.gtb_spec (Z.of_nat (length arr)) 180); [specialize (H3 E); lia |].
    subst. done. }
  destruct (String.eqb_spec timeWindow "1Y") as [E|_]; simpl; [| done].
  destruct (Z.gtb_spec (Z.of_nat (length arr)) 365); [specialize (H4 E); lia | done].
Qed.

Lemma optimizedData_nil timeWindow : optimizedData (@nil A) timeWindow = [].
Proof. apply optimizedData_short; simpl; lia. Qed.

Lemma optimizedData_ALL arr : optimizedData arr "ALL" = arr.
Proof. apply optimizedData_short; done. Qed.

Lemma optimizedData_1W arr :
  (7 < length arr)%nat → optimizedData arr "1W" = drop (length arr - 7) arr.
Proof.
  intros H. unfold optimizedData. simpl.
  destruct (Z.gtb_spec (Z.of_nat (length arr)) 7); [| lia].
  apply (Array_slice_last 7). lia.
Qed.

Lemma optimizedData_1M arr :
  (60 < length arr)%nat → optimizedData arr "1M" = drop (length arr - 30) arr.
Proof.
  intros H. unfold optimizedData. simpl.
  destruct (Z.gtb_spec (Z.of_nat (length arr)) 60); [| lia].
  apply (Array_slice_last 30). lia.
Qed.

(** The "3M" branch on [l1 ++ l2] with 90 elements in [l2]. *)
Lemma optimizedData_3M (l1 l2 : list A) :
  length l2 = 90%nat → (90 < length l1)%nat →
  optimizedData (l1 ++ l2) "3M"
  = Array_filter_from 0 (λ _ index, index mod 2 =? 0) l1 ++ l2.
Proof.
  intros H2 H1. unfold optimizedData. simpl.
  destruct (Z.gtb_spec (Z.of_nat (length (l1 ++ l2))) 180) as [_|Hn];
    [| rewrite length_app in Hn; lia].
  apply (Array_filter_head_tail (λ index, index mod 2 =? 0)).
  rewrite length_app. lia.
Qed.

(** The "1Y" branch on [l1 ++ l2] with 365 elements in [l2]. *)
Lemma optimizedData_1Y (l1 l2 : list A) :
  length l2 = 365%nat → (0 < length l1)%nat →
  optimizedData (l1 ++ l2) "1Y"
  = Array_filter_from 0 (λ _ index, index mod 7 =? 0) l1 ++ l2.
Proof.
  intros H2 H1. unfold optimizedData. simpl.
  destruct (Z.gtb_spec (Z.of_nat (length (l1 ++ l2))) 365) as [_|Hn];
    [| rewrite length_app in Hn; lia].
  apply (Array_filter_head_tail (λ index, index mod 7 =? 0)).
  rewrite length_app. lia.
Qed.

(** Applying the branches to their own output changes nothing, unless
    the output of a subsampling branch is long enough to be subsampled
    again: beyond 270 points for "3M", beyond 372 for "1Y". *)
Lemma optimizedData_idempotent arr timeWindow :
  (timeWindow = "3M" → (length arr ≤ 270)%nat) →
  (timeWindow = "1Y" → (length arr ≤ 372)%nat) →
  optimizedData (optimizedData arr timeWindow) timeWindow
  = optimizedData arr timeWindow.
Proof.
  intros H3M H1Y.
  destruct (String.eqb_spec timeWindow "1W") as [->|N1].
  { destruct (le_lt_dec (length arr) 7) as [Hs|Hl].
    - rewrite !(optimizedData_short arr); (done || auto).
    - rewrite (optimizedData_1W arr Hl).
      apply optimizedData_short; try done.
      intros _. rewrite length_drop. lia. }
  destruct (String.eqb_spec timeWindow "1M") as [->|N2].
  { destruct (le_lt_dec (length arr) 60) as [Hs|Hl].
    - rewrite !(optimizedData_short arr); (done || auto).
    - rewrite (optimizedData_1M arr Hl).
      apply optimizedData_short; try done.
      intros _. rewrite length_drop. lia. }
  destruct (String.eqb_spec timeWindow "3M") as [->|N3].
  { specialize (H3M eq_refl).
    destruct (le_lt_dec (length arr) 180) as [Hs|Hl].
    - rewrite !(optimizedData_short arr); (done || auto).
    - destruct (split_tail 90 arr) as (l1 & l2 & -> & Hl2 & _); [lia |].
      rewrite length_app in H3M, Hl.
      rewrite optimizedData_3M by lia.
      apply optimizedData_short; try done.
      intros _. rewrite length_app.
      pose proof (Array_filter_from_even_length 0 l1) as Hev.
      change (Z.of_nat 0 mod 2) with 0 in Hev. lia. }
  destruct (String.eqb_spec timeWindow "1Y") as [->|N4].
  { specialize (H1Y eq_refl).
    destruct (le_lt_dec (length arr) 365) as [Hs|Hl].
    - rewrite !(optimizedData_short arr); (done || auto).
    - destruct (split_tail 365 arr) as (l1 & l2 & -> & Hl2 & _); [lia |].
      rewrite length_app in H1Y, Hl.
      rewrite optimizedData_1Y by lia.
      destruct l1 as [|x l1]; [simpl in Hl; lia |].
      simpl in H1Y.
      assert (Hout : Array_filter_from 0 (λ (_ : A) index, index mod 7 =? 0) (x :: l1) = [x]).
      { simpl. f_equal. apply Array_filter_from_none. intros _ j Hj.
        destruct (Z.eqb_spec (Z.of_nat j mod 7) 0) as [E|]; [| done].
        exfalso. revert E. Z.div_mod_to_equations. lia. }
      rewrite Hout.
      rewrite (optimizedData_1Y [x] l2) by (simpl; lia). done. }
  rewrite !(optimizedData_short arr); done.
Qed.

(** *** The memo around the branches *)

(** For one label, arrays of different lengths have different keys. *)
Lemma cacheKey_inj_length timeWindow (n m : nat) :
  cacheKey timeWindow n = cacheKey timeWindow m → n = m.
Proof.
  unfold cacheKey. intros H.
  repeat apply (inj (String.app _)) in H.
  by apply (inj pretty) in H.
Qed.

Lemma memoHit_empty now key : memoHit (∅ : gmap string (CacheEntry (CachedValue A))) now key = false.
Proof. done. Qed.

(** Without a memo hit the function returns what the branches compute
    (which is the input itself for "ALL" and for the empty array). *)
Lemma optimize_miss dataCache t1 t2 arr timeWindow :
  memoHit dataCache t1 (cacheKey timeWindow (length arr)) = false →
  fst (optimizeDataForTimeWindow dataCache t1 t2 arr timeWindow)
  = optimizedData arr timeWindow.
Proof.
  unfold memoHit, optimizeDataForTimeWindow. intros Hmiss.
  destruct (String.eqb_spec timeWindow "ALL") as [->|_]; simpl.
  { by rewrite optimizedData_ALL. }
  destruct (Nat.eqb_spec (length arr) 0) as [E|_].
  { apply length_zero_iff_nil in E as ->. by rewrite optimizedData_nil. }
  destruct (DataCache.get _ _ _) as [[[cached|]|] cache1]; simpl in *; done.
Qed.

(** With a memo hit it returns the memoised array, whatever [arr] holds. *)
Lemma optimize_hit dataCache t1 t2 arr timeWindow cached :
  timeWindow ≠ "ALL" → arr ≠ [] →
  fst (DataCache.get dataCache t1 (cacheKey timeWindow (length arr)))
    = Some (IsArray cached) →
  fst (optimizeDataForTimeWindow dataCache t1 t2 arr timeWindow) = cached.
Proof.
  unfold optimizeDataForTimeWindow. intros Hw Harr Hget.
  destruct (String.eqb_spec timeWindow "ALL") as [|_]; [done |]. simpl.
  destruct (Nat.eqb_spec (length arr) 0) as [E|_].
  { by apply length_zero_iff_nil in E. }
  destruct (DataCache.get _ _ _) as [[[c|]|] cache1]; simpl in *; congruence.
Qed.

(** The cache after a call that computes: the result sits under the
    call's key, stamped [t2], for 30 minutes. *)
Lemma optimize_miss_state dataCache t1 t2 arr timeWindow :
  timeWindow ≠ "ALL" → arr ≠ [] →
  memoHit dataCache t1 (cacheKey timeWindow (length arr)) = false →
  snd (optimizeDataForTimeWindow dataCache t1 t2 arr timeWindow)
    !! cacheKey timeWindow (length arr)
  = Some {| data := IsArray (optimizedData arr timeWindow);
            timestamp := t2; ttl := 1800000 |}.
Proof.
  unfold memoHit, optimizeDataForTimeWindow. intros Hw Harr Hmiss.
  destruct (String.eqb_spec timeWindow "ALL") as [|_]; [done |]. simpl.
  destruct (Nat.eqb_spec (length arr) 0) as [E|_].
  { by apply length_zero_iff_nil in E. }
  destruct (DataCache.get _ _ _) as [[[c|]|] cache1]; simpl in *;
    try done; apply lookup_set.
Qed.
End OptimizeFacts.

(** C4: from an empty cache, "1W" on more than 7 points returns the last
    7 points of the input in their order, and "1M" on more than 60 points
    returns the last 30. *)
Theorem optimize_keeps_last_7_or_30 {A : Type} (arr : list A) (t1 t2 : Z) :
  ((7 < length arr)%nat →
     let out := fst (optimizeDataForTimeWindow ∅ t1 t2 arr "1W") in
     out = drop (length arr - 7) arr
     ∧ length out = 7%nat
     ∧ take (length arr - 7) arr ++ out = arr)
  ∧ ((60 < length arr)%nat →
     let out := fst (optimizeDataForTimeWindow ∅ t1 t2 arr "1M") in
     out = drop (length arr - 30) arr
     ∧ length out = 30%nat
     ∧ take (length arr - 30) arr ++ out = arr).
Proof.
  split; intros Hlen out; subst out;
    rewrite optimize_miss by apply memoHit_empty.
  - rewrite optimizedData_1W by done.
    rewrite length_drop, take_drop. repeat split; lia.
  - rewrite optimizedData_1M by done.
    rewrite length_drop, take_drop. repeat split; lia.
Qed.

Lemma optimize_keeps_last_7_or_30_witness :
  fst (optimizeDataForTimeWindow ∅ 0 0 (seq 0 61) "1W") = seq 54 7
  ∧ fst (optimizeDataForTimeWindow ∅ 0 0 (seq 0 61) "1M") = seq 31 30.
Proof.
  destruct (optimize_keeps_last_7_or_30 (seq 0 61) 0 0) as [H7 H30].
  split.
  - destruct H7 as (-> & _ & _); [simpl; lia | reflexivity].
  - destruct H30 as (-> & _ & _); [simpl; lia | reflexivity].
Defined.

(** Within 30 minutes of a call that computed, a call with the same label
    and any array of the same length is answered from the memo. *)
Lemma optimize_memo_ignores_content {A : Type}
    (dataCache : gmap string (CacheEntry (CachedValue A)))
    (t1 t2 t3 t4 : Z) (d1 d2 : list A) (timeWindow : string) :
  timeWindow ≠ "ALL" → d1 ≠ [] → length d1 = length d2 →
  memoHit dataCache t1 (cacheKey timeWindow (length d1)) = false →
  t3 - t2 <= 1800000 →
  fst (optimizeDataForTimeWindow
         (snd (optimizeDataForTimeWindow dataCache t1 t2 d1 timeWindow))
         t3 t4 d2 timeWindow)
  = optimizedData d1 timeWindow.
Proof.
  intros Hw Hd1 Hlen Hmiss Httl.
  apply optimize_hit; [done | by destruct d1, d2 |].
  rewrite <- Hlen.
  pose proof (optimize_miss_state dataCache t1 t2 d1 timeWindow Hw Hd1 Hmiss) as Hst.
  rewrite (get_live _ t3 _ _ Hst); [done | simpl; lia].
Qed.

(** C9: the result depends on the cache and not only on the arguments.
    Two different arrays of 8 points and the label "1W": the first call
    computes the last 7 points of the first array; the second call, made
    at most 30 minutes after the first one stored its result, returns
    those same points for the second array, although the branches on the
    second array (and a call on it from an empty cache) give other
    points. *)
Theorem optimize_result_depends_on_cache :
  ∃ (d1 d2 : list nat) (timeWindow : string),
    d1 ≠ d2 ∧ length d1 = length d2 ∧ timeWindow ≠ "ALL"
    ∧ ∀ t1 t2 t3 t4 : Z,
        t3 - t2 <= 30 * 60 * 1000 →
        let r1 := fst (optimizeDataForTimeWindow ∅ t1 t2 d1 timeWindow) in
        let c1 := snd (optimizeDataForTimeWindow ∅ t1 t2 d1 timeWindow) in
        let r2 := fst (optimizeDataForTimeWindow c1 t3 t4 d2 timeWindow) in
        r1 = optimizedData d1 timeWindow
        ∧ r2 = optimizedData d1 timeWindow
        ∧ r2 ≠ optimizedData d2 timeWindow
        ∧ r2 ≠ fst (optimizeDataForTimeWindow ∅ t3 t4 d2 timeWindow).
Proof.
  exists (seq 0 8), (seq 100 8), "1W".
  split; [done |]. split; [done |]. split; [done |].
  intros t1 t2 t3 t4 Httl r1 c1 r2. subst r1 c1 r2.
  rewrite optimize_memo_ignores_content by (done || apply memoHit_empty).
  rewrite !optimize_miss by apply memoHit_empty.
  repeat split; done.
Qed.

Lemma optimize_result_depends_on_cache_witness :
  ∃ (d1 d2 : list nat) (timeWindow : string),
    d1 ≠ d2 ∧ length d1 = length d2 ∧ timeWindow ≠ "ALL"
    ∧ fst (optimizeDataForTimeWindow
             (snd (optimizeDataForTimeWindow ∅ 0 1000 d1 timeWindow))
             1801000 1801000 d2 timeWindow)
      = optimizedData d1 timeWindow.
Proof.
  destruct optimize_result_depends_on_cache as (d1 & d2 & w & Hne & Hlen & Hw & H).
  exists d1, d2, w. repeat split; try done.
  apply (H 0 1000 1801000 1801000). lia.
Defined.

(** C10, as the code has it: for "3Y" and "6M", for "3M" on at most 180
    points and for "1Y" on at most 365 points, a call that is not
    answered from the memo returns its input unchanged, whatever its
    size. *)
Theorem optimize_unchanged_unless_memo_hit {A : Type}
    (dataCache : gmap string (CacheEntry (CachedValue A)))
    (t1 t2 : Z) (arr : list A) (timeWindow : string) :
  memoHit dataCache t1 (cacheKey timeWindow (length arr)) = false →
  timeWindow = "3Y" ∨ timeWindow = "6M"
    ∨ (timeWindow = "3M" ∧ (length arr ≤ 180)%nat)
    ∨ (timeWindow = "1Y" ∧ (length arr ≤ 365)%nat) →
  fst (optimizeDataForTimeWindow dataCache t1 t2 arr timeWindow) = arr.
Proof.
  intros Hmiss Hcase. rewrite optimize_miss by done.
  apply optimizedData_short;
    destruct Hcase as [->|[->|[[-> ?]|[-> ?]]]]; done.
Qed.

Lemma optimize_unchanged_unless_memo_hit_witness :
  fst (optimizeDataForTimeWindow ∅ 0 0 (seq 0 500) "3Y") = seq 0 500.
Proof.
  apply optimize_unchanged_unless_memo_hit; [reflexivity | left; reflexivity].
Defined.

(** C10 as worded fails when the memo answers: after a "3Y" call on one
    array of three points, a "3Y" call on another array of three points
    returns the first array, not its input. *)
Lemma optimize_3Y_returns_other_array :
  let c1 := snd (optimizeDataForTimeWindow ∅ 0 0 [1; 2; 3]%nat "3Y") in
  fst (optimizeDataForTimeWindow c1 1 1 [4; 5; 6]%nat "3Y") = [1; 2; 3]%nat
  ∧ fst (optimizeDataForTimeWindow c1 1 1 [4; 5; 6]%nat "3Y") ≠ [4; 5; 6]%nat.
Proof. vm_compute. split; [reflexivity | discriminate]. Qed.

(** ** The calendar *)

Section CalendarFacts.
Import JSDate.

(** [YearFromDay] finds the year of a day: the year starts on or before
    the day and the next year starts after it. *)
Lemma YearFromDay_spec d :
  DayFromYear (YearFromDay d) <= d < DayFromYear (YearFromDay d + 1).
Proof.
  unfold YearFromDay, DayFromYear.
  case_ifs; Z.div_mod_to_equations; lia.
Qed.

Lemma DayFromYear_mono y y' : y <= y' → DayFromYear y <= DayFromYear y'.
Proof. unfold DayFromYear. intros H. Z.div_mod_to_equations. lia. Qed.

(** It is the largest such year, which is how the language specification
    defines [YearFromTime]. *)
Lemma YearFromDay_largest d y : DayFromYear y <= d → y <= YearFromDay d.
Proof.
  intros Hy. destruct (Z.le_gt_cases y (YearFromDay d)) as [|Hgt]; [done |].
  pose proof (YearFromDay_spec d) as [_ Hnext].
  pose proof (DayFromYear_mono (YearFromDay d + 1) y). lia.
Qed.

Lemma DaysInYear_step y : DayFromYear (y + 1) = DayFromYear y + DaysInYear y.
Proof.
  unfold DayFromYear, DaysInYear.
  case_ifs; Z.div_mod_to_equations; lia.
Qed.

Lemma MonthFromTime_range t : 0 <= MonthFromTime t < 12.
Proof.
  unfold MonthFromTime.
  case_ifs; lia.
Qed.

Lemma MakeDay_in_year year month date :
  0 <= month < 12 →
  MakeDay year month date
  = DayFromYear year
    + DaysBeforeMonth month (if DaysInYear year =? 366 then 1 else 0)
    + date - 1.
Proof.
  intros H. unfold MakeDay.
  rewrite Z.div_small, Z.mod_small, Z.add_0_r by lia. done.
Qed.

(** Year, month and day of a time value name its day. *)
Lemma MakeDay_of_fields t :
  MakeDay (YearFromTime t) (MonthFromTime t) (DateFromTime t) = Day t.
Proof.
  rewrite MakeDay_in_year by apply MonthFromTime_range.
  unfold DateFromTime, MonthFromTime, InLeapYear, DayWithinYear, YearFromTime.
  pose proof (YearFromDay_spec (Day t)) as [Hlo Hhi].
  rewrite DaysInYear_step in Hhi.
  set (y := YearFromDay (Day t)) in *.
  set (d := Day t) in *.
  destruct (DaysInYear y =? 366) eqn:Hleap;
    case_ifs; cbn [DaysBeforeMonth]; lia.
Qed.

(** Lowering the day of the month by [k] moves the day by [k], across
    month and year ends alike. *)
Lemma MakeDay_minus_days t k :
  MakeDay (YearFromTime t) (MonthFromTime t) (DateFromTime t - k) = Day t - k.
Proof.
  pose proof (MakeDay_of_fields t) as H.
  rewrite MakeDay_in_year in H |- * by apply MonthFromTime_range. lia.
Qed.

Lemma MakeDate_Day_TimeWithinDay t : MakeDate (Day t) (TimeWithinDay t) = t.
Proof.
  unfold MakeDate, Day, TimeWithinDay, msPerDay.
  Z.div_mod_to_equations. lia.
Qed.
End CalendarFacts.

(** ** The date-cutoff reducer *)

Section FilterFacts.
Variable LocalTZA : Z → bool → Z.
Variable Date_parse : string → option Z.
Context {M : Type}.
Implicit Types (arr : list (TimeSeriesPoint M)) (timeWindow : TimeWindow).

Local Abbreviation reduce := (filterDataByTimeWindow LocalTZA Date_parse).
Local Abbreviation keeps cutoff :=
  (λ item : TimeSeriesPoint M, JSDate.ge (Date_parse (date item)) cutoff).

Lemma filter_ALL now start arr : reduce now start arr ALL = arr.
Proof. done. Qed.

Lemma filter_nil now start timeWindow :
  reduce now start (@nil (TimeSeriesPoint M)) timeWindow = [].
Proof. unfold filterDataByTimeWindow. simpl. by rewrite orb_true_r. Qed.

Lemma filter_not_ALL now start arr timeWindow :
  timeWindow ≠ ALL →
  reduce now start arr timeWindow
  = List.filter (keeps (cutoffDate LocalTZA now start timeWindow)) arr.
Proof.
  intros Hw. unfold filterDataByTimeWindow.
  destruct arr as [|item arr]; [by rewrite orb_true_r |].
  by destruct timeWindow.
Qed.

(** On one clock reading the [switch] subtracts the window's offset. *)
Lemma cutoffDate_offset now timeWindow :
  timeWindow ≠ ALL →
  cutoffDate LocalTZA now now timeWindow = offsetCutoff LocalTZA now timeWindow.
Proof.
  intros Hw. unfold offsetCutoff.
  destruct timeWindow; [done | ..]; simpl;
    unfold JSDate.setFullYear, JSDate.setMonth, JSDate.setDate,
      JSDate.getFullYear, JSDate.getMonth, JSDate.getDate;
    by rewrite ?Z.sub_0_r.
Qed.

Lemma List_filter_sublist (f : TimeSeriesPoint M → bool) arr :
  List.filter f arr `sublist_of` arr.
Proof.
  induction arr as [|x arr IH]; simpl; [constructor |].
  destruct (f x); [by apply sublist_skip | by apply sublist_cons].
Qed.

Lemma List_filter_idempotent (f : TimeSeriesPoint M → bool) arr :
  List.filter f (List.filter f arr) = List.filter f arr.
Proof.
  induction arr as [|x arr IH]; simpl; [done |].
  destruct (f x) eqn:E; simpl; [rewrite E; by f_equal | done].
Qed.

Lemma filter_sublist now start arr timeWindow :
  reduce now start arr timeWindow `sublist_of` arr.
Proof.
  destruct (decide (timeWindow = ALL)) as [->|Hw]; [done |].
  rewrite filter_not_ALL by done. apply List_filter_sublist.
Qed.

Lemma filter_idempotent now start arr timeWindow :
  reduce now start (reduce now start arr timeWindow) timeWindow
  = reduce now start arr timeWindow.
Proof.
  destruct (decide (timeWindow = ALL)) as [->|Hw]; [done |].
  rewrite !filter_not_ALL by done. apply List_filter_idempotent.
Qed.

(** Every valid date of a series is at most the latest one. *)
Lemma latestDate_upper arr item d :
  item ∈ arr → Date_parse (date item) = Some d →
  ∃ late, latestDate Date_parse arr = Some late ∧ d <= late.
Proof.
  induction arr as [|x arr IH]; intros Hin Hd; [by apply not_elem_of_nil in Hin |].
  apply elem_of_cons in Hin as [<-|Hin]; simpl.
  - rewrite Hd. destruct (latestDate Date_parse arr) as [a|];
      eexists; split; try done; lia.
  - destruct (IH Hin Hd) as (late & -> & Hle).
    destruct (Date_parse (date x)); eexists; split; try done; lia.
Qed.

Lemma ge_Some_inv a cutoff :
  JSDate.ge a cutoff = true ↔ ∃ c d, cutoff = Some c ∧ a = Some d ∧ c <= d.
Proof.
  unfold JSDate.ge. destruct a as [d|], cutoff as [c|]; split;
    try done; try (intros (? & ? & ? & ? & ?); done).
  - intros H%Z.leb_le. by exists c, d.
  - intros (? & ? & [= <-] & [= <-] & H). by apply Z.leb_le.
Qed.

End FilterFacts.

(** In a zone with a fixed offset from UTC the "1W" cutoff is the clock
    reading minus exactly seven days. *)
Lemma cutoff_1W_fixedOffset offset now :
  cutoffDate (ISO.fixedOffset offset) now now TW_1W
  = JSDate.TimeClip (now - 7 * JSDate.msPerDay).
Proof.
  unfold cutoffDate, JSDate.setDate, JSDate.getDate, JSDate.LocalTime,
    JSDate.UTC, ISO.fixedOffset.
  rewrite MakeDay_minus_days. f_equal.
  pose proof (MakeDate_Day_TimeWithinDay (now + offset)) as H.
  unfold JSDate.MakeDate in *. lia.
Qed.

(** ** Both reducers *)

(** C3: with the label "ALL" each reducer returns its input as it is, the
    empty input included, and an empty input comes back unchanged for
    every label; the count-based reducer leaves the cache alone in both
    cases. *)
Theorem reducers_identity_on_ALL_and_empty :
  (∀ LocalTZA Date_parse (M : Type) now start (arr : list (TimeSeriesPoint M)),
     filterDataByTimeWindow LocalTZA Date_parse now start arr ALL = arr)
  ∧ (∀ LocalTZA Date_parse (M : Type) now start timeWindow,
       filterDataByTimeWindow LocalTZA Date_parse now start
         (@nil (TimeSeriesPoint M)) timeWindow = [])
  ∧ (∀ (A : Type) dataCache t1 t2 (arr : list A),
       optimizeDataForTimeWindow dataCache t1 t2 arr "ALL" = (arr, dataCache))
  ∧ (∀ (A : Type) dataCache t1 t2 timeWindow,
       optimizeDataForTimeWindow dataCache t1 t2 (@nil A) timeWindow
       = ([], dataCache)).
Proof.
  split; [| split; [| split]]; intros.
  - apply filter_ALL.
  - apply filter_nil.
  - done.
  - unfold optimizeDataForTimeWindow. simpl. by rewrite orb_true_r.
Qed.

(** C7, as the code has it: the output of the date-cutoff reducer is a
    subsequence of its input; so is the output of every branch of the
    count-based reducer, and with it the output of every call that is not
    answered from the memo. *)
Theorem reducers_return_subsequence :
  (∀ LocalTZA Date_parse (M : Type) now start
     (arr : list (TimeSeriesPoint M)) timeWindow,
     filterDataByTimeWindow LocalTZA Date_parse now start arr timeWindow
       `sublist_of` arr)
  ∧ (∀ (A : Type) (arr : list A) timeWindow,
       optimizedData arr timeWindow `sublist_of` arr)
  ∧ (∀ (A : Type) dataCache t1 t2 (arr : list A) timeWindow,
       memoHit dataCache t1 (cacheKey timeWindow (length arr)) = false →
       fst (optimizeDataForTimeWindow dataCache t1 t2 arr timeWindow)
         `sublist_of` arr).
Proof.
  split; [| split]; intros.
  - apply filter_sublist.
  - apply optimizedData_sublist.
  - rewrite optimize_miss by done. apply optimizedData_sublist.
Qed.

Lemma reducers_return_subsequence_witness :
  fst (optimizeDataForTimeWindow ∅ 0 0 (seq 0 400) "1Y") `sublist_of` seq 0 400.
Proof.
  destruct reducers_return_subsequence as (_ & _ & H).
  apply H. reflexivity.
Defined.

(** C7 as worded fails when the memo answers: after a "1W" call on the
    points 0..7, a "1W" call on the points 100..107 returns 1..7, which
    are not points of its input at all. *)
Lemma optimize_memo_output_not_subsequence :
  let c1 := snd (optimizeDataForTimeWindow ∅ 0 0 (seq 0 8) "1W") in
  let out := fst (optimizeDataForTimeWindow c1 1 1 (seq 100 8) "1W") in
  out = seq 1 7 ∧ ¬ out `sublist_of` seq 100 8.
Proof.
  intros c1 out.
  assert (Hout : out = seq 1 7) by (vm_compute; reflexivity).
  split; [done |]. rewrite Hout. intros Hsub.
  assert (Hin : 1%nat ∈ seq 100 8).
  { eapply elem_of_sublist; [| exact Hsub]. simpl. left. }
  apply list_elem_of_In in Hin. simpl in Hin. intuition discriminate.
Qed.

(** What a cache that started empty holds after one call: nothing but the
    array that call returned. *)
Lemma optimize_from_empty_state {A : Type} (t1 t2 : Z) (arr : list A)
    (timeWindow key : string) (entry : CacheEntry (CachedValue A)) :
  snd (optimizeDataForTimeWindow ∅ t1 t2 arr timeWindow) !! key = Some entry →
  data entry = IsArray (optimizedData arr timeWindow).
Proof.
  unfold optimizeDataForTimeWindow.
  destruct (_ || _); simpl; [by rewrite lookup_empty |].
  unfold DataCache.get. rewrite lookup_empty. simpl.
  unfold DataCache.set. rewrite lookup_insert.
  case_decide; [by intros [= <-] | by rewrite lookup_empty].
Qed.

Lemma get_Some_data {T : Type} (cache : gmap string (CacheEntry T)) now key v :
  fst (DataCache.get cache now key) = Some v →
  ∃ entry, cache !! key = Some entry ∧ data entry = v.
Proof.
  unfold DataCache.get. destruct (cache !! key) as [entry|]; [| done].
  destruct (_ >? _); [done |]. intros [= <-]. by exists entry.
Qed.

(** C5, as the code has it.  On fixed clock readings the date-cutoff
    reducer is idempotent for every window and input.  The count-based
    reducer, started from an empty cache and applied to its own output, is
    idempotent for every label and input except where a subsampling branch
    would subsample its own output again: "3M" is idempotent up to 270
    points and "1Y" up to 372 points of input. *)
Theorem reducers_idempotent_unless_resampled :
  (∀ LocalTZA Date_parse (M : Type) now start
     (arr : list (TimeSeriesPoint M)) timeWindow,
     let reduce := filterDataByTimeWindow LocalTZA Date_parse now start in
     reduce (reduce arr timeWindow) timeWindow = reduce arr timeWindow)
  ∧ (∀ (A : Type) (arr : list A) timeWindow t1 t2 t3 t4,
       (timeWindow = "3M" → (length arr ≤ 270)%nat) →
       (timeWindow = "1Y" → (length arr ≤ 372)%nat) →
       let r1 := fst (optimizeDataForTimeWindow ∅ t1 t2 arr timeWindow) in
       let c1 := snd (optimizeDataForTimeWindow ∅ t1 t2 arr timeWindow) in
       fst (optimizeDataForTimeWindow c1 t3 t4 r1 timeWindow) = r1).
Proof.
  split.
  - intros. apply filter_idempotent.
  - intros A arr timeWindow t1 t2 t3 t4 H3M H1Y r1 c1.
    assert (Hr1 : r1 = optimizedData arr timeWindow).
    { subst r1. apply optimize_miss, memoHit_empty. }
    assert (Hidem : optimizedData r1 timeWindow = r1).
    { rewrite Hr1. by apply optimizedData_idempotent. }
    destruct (memoHit c1 t3 (cacheKey timeWindow (length r1))) eqn:Hhit.
    + unfold optimizeDataForTimeWindow.
      destruct (_ || _); [done |].
      unfold memoHit in Hhit.
      destruct (DataCache.get c1 t3 _) as [[[cached|]|] cache1] eqn:Hget;
        simpl in *; try done.
      destruct (get_Some_data c1 t3 (cacheKey timeWindow (length r1))
                  (IsArray cached)) as (entry & Hentry & Hdata).
      { by rewrite Hget. }
      apply optimize_from_empty_state in Hentry. congruence.
    + by rewrite optimize_miss.
Qed.

Lemma reducers_idempotent_unless_resampled_witness :
  let r1 := fst (optimizeDataForTimeWindow ∅ 0 0 (seq 0 270) "3M") in
  let c1 := snd (optimizeDataForTimeWindow ∅ 0 0 (seq 0 270) "3M") in
  fst (optimizeDataForTimeWindow c1 1 1 r1 "3M") = r1.
Proof.
  destruct reducers_idempotent_unless_resampled as [_ H].
  apply (H nat (seq 0 270) "3M" 0 0 1 1).
  - intros _. rewrite length_seq. lia.
  - discriminate.
Defined.

(** C5 as worded fails in the subsampling branches.  From an empty cache,
    "3M" on 271 points returns 181 points, and applied to those it returns
    136; "1Y" on 373 points returns 367 points, and applied to those it
    returns 366. *)
Lemma optimize_twice_differs :
  let r1 := fst (optimizeDataForTimeWindow ∅ 0 0 (seq 0 271) "3M") in
  let c1 := snd (optimizeDataForTimeWindow ∅ 0 0 (seq 0 271) "3M") in
  let r2 := fst (optimizeDataForTimeWindow c1 0 0 r1 "3M") in
  let s1 := fst (optimizeDataForTimeWindow ∅ 0 0 (seq 0 373) "1Y") in
  let d1 := snd (optimizeDataForTimeWindow ∅ 0 0 (seq 0 373) "1Y") in
  let s2 := fst (optimizeDataForTimeWindow d1 0 0 s1 "1Y") in
  (length r1 = 181%nat ∧ length r2 = 136%nat ∧ r2 ≠ r1)
  ∧ (length s1 = 367%nat ∧ length s2 = 366%nat ∧ s2 ≠ s1).
Proof.
  intros r1 c1 r2 s1 d1 s2.
  assert (Hr1 : length r1 = 181%nat) by (vm_compute; reflexivity).
  assert (Hr2 : length r2 = 136%nat) by (vm_compute; reflexivity).
  assert (Hs1 : length s1 = 367%nat) by (vm_compute; reflexivity).
  assert (Hs2 : length s2 = 366%nat) by (vm_compute; reflexivity).
  split; (split; [assumption | split; [assumption |]]).
  - intros E. rewrite E in Hr2. lia.
  - intros E. rewrite E in Hs2. lia.
Qed.

(** ** The worked example *)

Section WorkedExample.
Import JSDate.

Example parse_2025_09_02 : ISO.parse "2025-09-02" = Some exampleNow.
Proof. vm_compute. reflexivity. Qed.

Example parse_2024_09_02 : ISO.parse "2024-09-02" = Some 1725235200000.
Proof. vm_compute. reflexivity. Qed.

(** The series runs from 2024-07-29 to 2025-09-01, one point per day. *)
Example exampleSeries_ends :
  length exampleSeries = 400%nat
  ∧ date <$> head exampleSeries = Some "2024-07-29"
  ∧ date <$> last exampleSeries = Some "2025-09-01".
Proof. vm_compute. repeat split; reflexivity. Qed.

Example exampleSeries_daily :
  (λ item, ISO.parse (date item)) <$> exampleSeries
  = (λ i, Some ((19933 + Z.of_nat i) * msPerDay)) <$> seq 0 400.
Proof. vm_compute. reflexivity. Qed.

(** With the clock at midnight UTC of 2025-09-02 the cutoff is midnight
    of 2024-09-02; one millisecond later it lies after the point of
    2024-09-02 and 364 points are kept. *)
Example example_1Y_one_millisecond_later :
  length (filterDataByTimeWindow (ISO.fixedOffset 0) ISO.parse
            (exampleNow + 1) (exampleNow + 1) exampleSeries TW_1Y)
  = 364%nat.
Proof. vm_compute. reflexivity. Qed.

(** Months are subtracted on the calendar fields: one month before
    2025-03-31 is "February 31st", which [MakeDay] reads as 2025-03-03. *)
Example cutoff_1M_end_of_march :
  ISO.parse "2025-03-31" = Some 1743379200000
  ∧ cutoffDate (ISO.fixedOffset 0) 1743379200000 1743379200000 TW_1M
    = ISO.parse "2025-03-03".
Proof. vm_compute. split; reflexivity. Qed.

(** The two [new Date()] of the source are two clock readings.  Should
    midnight of a new year fall between them, the year comes from the
    first and the rest from the second: three years before the last
    millisecond of 2025 then reads as 2022-01-01. *)
Example cutoff_3Y_across_new_year :
  ISO.parse "2026-01-01" = Some 1767225600000
  ∧ cutoffDate (ISO.fixedOffset 0) (1767225600000 - 1) 1767225600000 TW_3Y
    = ISO.parse "2022-01-01".
Proof. vm_compute. split; reflexivity. Qed.
End WorkedExample.

(** * Further properties of the cache *)

Section CacheAlgebra.
Context {T : Type}.
Implicit Types (cache : gmap string (CacheEntry T)) (key : string).

(** What [get] does to the map: it deletes the key it was asked for when
    that key's entry has expired, and nothing else. *)
Lemma get_state cache now key :
  snd (DataCache.get cache now key)
  = match cache !! key with
    | Some entry =>
        if now - timestamp entry >? ttl entry then delete key cache else cache
    | None => cache
    end.
Proof.
  unfold DataCache.get. destruct (cache !! key) as [entry|]; [| done].
  by destruct (_ >? _).
Qed.

Lemma has_state cache now key :
  snd (DataCache.has cache now key) = snd (DataCache.get cache now key).
Proof.
  unfold DataCache.has, DataCache.get.
  destruct (cache !! key) as [entry|]; [| done]. by destruct (_ >? _).
Qed.

Lemma get_None_state cache now key :
  fst (DataCache.get cache now key) = None →
  snd (DataCache.get cache now key) !! key = None.
Proof.
  unfold DataCache.get. destruct (cache !! key) as [entry|] eqn:E; [| done].
  destruct (_ >? _); [| done]. intros _. apply lookup_delete_eq.
Qed.

Lemma get_other_key cache now key other :
  other ≠ key →
  snd (DataCache.get cache now key) !! other = cache !! other.
Proof.
  intros Hne. rewrite get_state.
  destruct (cache !! key) as [entry|]; [| done].
  destruct (_ >? _); [| done]. by rewrite lookup_delete_ne.
Qed.

(** X1: a read never touches another key.  Whatever [get] or [has] does
    for [key], every other key keeps its entry. *)
Theorem reads_leave_other_keys cache now key other :
  other ≠ key →
  snd (DataCache.get cache now key) !! other = cache !! other
  ∧ snd (DataCache.has cache now key) !! other = cache !! other.
Proof. intros Hne. rewrite has_state. split; by apply get_other_key. Qed.

(** X2: [set] on one key and [get] on another commute: the read returns
    what it would have returned without the write, and the two orders
    leave the same cache. *)
Theorem set_commutes_with_get_elsewhere cache t0 now key other (v : T) m :
  other ≠ key →
  DataCache.get (DataCache.set cache t0 key v m) now other
  = (fst (DataCache.get cache now other),
     DataCache.set (snd (DataCache.get cache now other)) t0 key v m).
Proof.
  intros Hne. unfold DataCache.get, DataCache.set.
  rewrite lookup_insert_ne by done.
  destruct (cache !! other) as [entry|]; [| done].
  destruct (_ >? _); [| done]. simpl.
  by rewrite delete_insert_ne.
Qed.

(** X3: absence is final until the next [set].  Once [get] has answered
    [null] for a key, every later [get] and [has] for that key misses as
    well, at any clock reading, also an earlier one, and changes nothing
    more. *)
Theorem absence_is_sticky cache now key :
  fst (DataCache.get cache now key) = None →
  ∀ later,
    let cache' := snd (DataCache.get cache now key) in
    DataCache.get cache' later key = (None, cache')
    ∧ DataCache.has cache' later key = (false, cache').
Proof.
  intros Hnone%get_None_state later cache'. subst cache'.
  unfold DataCache.get at 1, DataCache.has. by rewrite Hnone.
Qed.

(** X4: [size] counts expired entries too, until a read of their key
    evicts them: a read of an expired entry lowers [size] by exactly one,
    and every other read leaves the cache as it is. *)
Theorem size_drops_only_on_eviction cache now key :
  match cache !! key with
  | Some entry =>
      if now - timestamp entry >? ttl entry
      then DataCache.size cache
           = S (DataCache.size (snd (DataCache.get cache now key)))
      else snd (DataCache.get cache now key) = cache
  | None => snd (DataCache.get cache now key) = cache
  end.
Proof.
  rewrite get_state. destruct (cache !! key) as [entry|] eqn:E; [| done].
  destruct (_ >? _); [| done].
  unfold DataCache.size. rewrite <- (insert_delete_id cache key entry E) at 1.
  rewrite map_size_insert_None by apply lookup_delete_eq. done.
Qed.

(** X5: [set] adds one entry for a new key and none for a key already
    present, whose value, timestamp and TTL it replaces: nothing of the
    earlier [set] survives the later one. *)
Theorem set_overwrites_in_place cache t0 t1 key (v w : T) m n :
  DataCache.size (DataCache.set cache t1 key w n)
  = match cache !! key with
    | Some _ => DataCache.size cache
    | None => S (DataCache.size cache)
    end
  ∧ DataCache.set (DataCache.set cache t0 key v m) t1 key w n
    = DataCache.set cache t1 key w n
  ∧ DataCache.size (DataCache.set (DataCache.set cache t0 key v m) t1 key w n)
    = DataCache.size (DataCache.set cache t0 key v m).
Proof.
  unfold DataCache.size, DataCache.set. split; [| split].
  - destruct (cache !! key) as [entry|] eqn:E.
    + rewrite map_size_insert_Some; [done | by eexists].
    + by rewrite map_size_insert_None.
  - apply insert_insert_eq.
  - rewrite map_size_insert_Some; [done |]. rewrite lookup_insert_eq. by eexists.
Qed.

(** X6: serving is downward closed in time.  An entry served at one clock
    reading is served, with the same value and no change to the cache, at
    every earlier reading. *)
Theorem served_at_earlier_times cache now earlier key (v : T) :
  fst (DataCache.get cache now key) = Some v →
  earlier <= now →
  DataCache.get cache earlier key = (Some v, cache).
Proof.
  unfold DataCache.get. destruct (cache !! key) as [entry|]; [| done].
  destruct (Z.gtb_spec (now - timestamp entry) (ttl entry)); [done |].
  intros [= <-] Hle.
  destruct (Z.gtb_spec (earlier - timestamp entry) (ttl entry)); [lia | done].
Qed.

(** [clear] empties the cache. *)
Lemma clear_misses cache now key :
  DataCache.size (DataCache.clear cache) = 0%nat
  ∧ DataCache.get (DataCache.clear cache) now key = (None, DataCache.clear cache).
Proof. done. Qed.
End CacheAlgebra.

Lemma reads_leave_other_keys_witness :
  let cache := DataCache.set (∅ : gmap string (CacheEntry Z)) 0 "a" 1 (Some 1) in
  snd (DataCache.get cache 99999 "b") !! "a" = cache !! "a"
  ∧ snd (DataCache.has cache 99999 "b") !! "a" = cache !! "a".
Proof. intros cache. apply reads_leave_other_keys. discriminate. Defined.

Lemma set_commutes_with_get_elsewhere_witness :
  let cache := DataCache.set (∅ : gmap string (CacheEntry Z)) 0 "a" 1 (Some 1) in
  DataCache.get (DataCache.set cache 5 "b" 2 None) 99999 "a"
  = (fst (DataCache.get cache 99999 "a"),
     DataCache.set (snd (DataCache.get cache 99999 "a")) 5 "b" 2 None).
Proof. intros cache. apply set_commutes_with_get_elsewhere. discriminate. Defined.

Lemma absence_is_sticky_witness :
  let cache := DataCache.set (∅ : gmap string (CacheEntry Z)) 0 "a" 1 (Some 1) in
  let cache' := snd (DataCache.get cache 60001 "a") in
  DataCache.get cache' 0 "a" = (None, cache')
  ∧ DataCache.has cache' 0 "a" = (false, cache').
Proof.
  intros cache. apply (absence_is_sticky cache 60001 "a"). reflexivity.
Defined.

Lemma served_at_earlier_times_witness :
  let cache := DataCache.set (∅ : gmap string (CacheEntry Z)) 0 "a" 1 (Some 1) in
  DataCache.get cache 10 "a" = (Some 1, cache).
Proof.
  intros cache. apply (served_at_earlier_times cache 60000 10 "a" 1).
  - reflexivity.
  - lia.
Defined.

(** * Further properties of the count-based reducer *)

Section CacheKeys.

Lemma free_of_app_sep c s1 s2 : ¬ free_of c (s1 +:+ String c s2).
Proof. induction s1 as [|a s1 IH]; simpl; intros [? ?]; [done | by apply IH]. Qed.

(** Two strings that end in a separator and a separator-free part are
    equal only part by part. *)
Lemma app_sep_inj c (l1 l2 d1 d2 : string) :
  free_of c d1 → free_of c d2 →
  l1 +:+ String c d1 = l2 +:+ String c d2 → l1 = l2 ∧ d1 = d2.
Proof.
  intros Hd1 Hd2. revert l2.
  induction l1 as [|a l1 IH]; intros [|b l2]; simpl; intros E.
  - by injection E as ->.
  - injection E as <- ->. by destruct (free_of_app_sep c l2 d2).
  - injection E as -> <-. by destruct (free_of_app_sep c l1 d1).
  - injection E as -> E. by destruct (IH l2 E) as [-> ->].
Qed.

Lemma pretty_N_go_free_of (x : N) s :
  free_of "_" s → free_of "_" (pretty_N_go x s).
Proof.
  revert s. induction (N.lt_wf_0 x) as [x _ IH]; intros s Hs.
  assert (x = 0 ∨ 0 < x)%N as [->|?] by lia; [done |].
  rewrite pretty_N_go_step by done. apply IH; [by apply N.div_lt |].
  split; [| done]. unfold pretty_N_char. by repeat case_match.
Qed.

Lemma pretty_nat_free_of (n : nat) : free_of "_" (pretty n).
Proof.
  unfold pretty, pretty_nat, pretty, pretty_N.
  case_decide; [by repeat split | by apply pretty_N_go_free_of].
Qed.

Lemma cacheKey_eq_inv timeWindow1 timeWindow2 (n1 n2 : nat) :
  cacheKey timeWindow1 n1 = cacheKey timeWindow2 n2 →
  timeWindow1 = timeWindow2 ∧ n1 = n2.
Proof.
  unfold cacheKey. intros H. apply (inj (String.app _)) in H.
  apply app_sep_inj in H as [-> H]; auto using pretty_nat_free_of.
  split; [done |]. by apply (inj pretty) in H.
Qed.

(** X7: the key determines the label and the length, whatever characters
    the label holds: two calls share a cache slot exactly when they have
    the same label and arrays of the same length. *)
Theorem cacheKey_inj timeWindow1 timeWindow2 (n1 n2 : nat) :
  cacheKey timeWindow1 n1 = cacheKey timeWindow2 n2
  ↔ timeWindow1 = timeWindow2 ∧ n1 = n2.
Proof. split; [apply cacheKey_eq_inv | by intros [-> ->]]. Qed.

Lemma cacheKey_inj_witness : cacheKey "3M" 200 = cacheKey "3M" 200.
Proof. apply cacheKey_inj. split; reflexivity. Defined.

End CacheKeys.


Section OptimizeMemo.
Context {A : Type}.
Implicit Types (arr : list A) (timeWindow : string)
  (dataCache : gmap string (CacheEntry (CachedValue A))).

(** A call looks at one slot of the cache only. *)
Lemma optimize_reads_one_slot dataCache dataCache' t1 t2 arr timeWindow :
  dataCache !! cacheKey timeWindow (length arr)
    = dataCache' !! cacheKey timeWindow (length arr) →
  fst (optimizeDataForTimeWindow dataCache t1 t2 arr timeWindow)
  = fst (optimizeDataForTimeWindow dataCache' t1 t2 arr timeWindow).
Proof.
  intros H. unfold optimizeDataForTimeWindow, DataCache.get.
  destruct (_ || _); [done |]. rewrite H.
  destruct (dataCache' !! _) as [entry|]; [| done].
  destruct (_ >? _); [done |]. by destruct (data entry).
Qed.

(** And it writes to that slot only. *)
Lemma optimize_writes_one_slot dataCache t1 t2 arr timeWindow key :
  key ≠ cacheKey timeWindow (length arr) →
  snd (optimizeDataForTimeWindow dataCache t1 t2 arr timeWindow) !! key
  = dataCache !! key.
Proof.
  intros Hne. unfold optimizeDataForTimeWindow.
  destruct (_ || _); [done |].
  pose proof (get_other_key dataCache t1 _ key Hne) as Hget.
  destruct (DataCache.get dataCache t1 _) as [[[cached|]|] cache1];
    simpl in *; try done;
    unfold DataCache.set; by rewrite lookup_insert_ne.
Qed.

Lemma optimize_hit_state dataCache t1 t2 arr timeWindow entry cached :
  timeWindow ≠ "ALL" → arr ≠ [] →
  dataCache !! cacheKey timeWindow (length arr) = Some entry →
  data entry = IsArray cached →
  t1 - timestamp entry <= ttl entry →
  optimizeDataForTimeWindow dataCache t1 t2 arr timeWindow = (cached, dataCache).
Proof.
  intros Hw Harr Hentry Hdata Hlive. unfold optimizeDataForTimeWindow.
  destruct (String.eqb_spec timeWindow "ALL") as [|_]; [done |]. simpl.
  destruct (Nat.eqb_spec (length arr) 0) as [E|_].
  { by apply length_zero_iff_nil in E. }
  rewrite (get_live _ _ _ _ Hentry Hlive). by rewrite Hdata.
Qed.

Lemma optimize_expired dataCache t1 t2 arr timeWindow entry :
  timeWindow ≠ "ALL" → arr ≠ [] →
  dataCache !! cacheKey timeWindow (length arr) = Some entry →
  ttl entry < t1 - timestamp entry →
  optimizeDataForTimeWindow dataCache t1 t2 arr timeWindow
  = (optimizedData arr timeWindow,
     DataCache.set dataCache t2 (cacheKey timeWindow (length arr))
       (IsArray (optimizedData arr timeWindow)) (Some 30)).
Proof.
  intros Hw Harr Hentry Hdead. unfold optimizeDataForTimeWindow.
  destruct (String.eqb_spec timeWindow "ALL") as [|_]; [done |]. simpl.
  destruct (Nat.eqb_spec (length arr) 0) as [E|_].
  { by apply length_zero_iff_nil in E. }
  rewrite (get_expired _ _ _ _ Hentry Hdead). f_equal.
  unfold DataCache.set. apply insert_delete_eq.
Qed.

(** X8: calls with another label or another length do not interfere.
    After any call for [(timeWindow1, d1)], a call for [(timeWindow2, d2)]
    with a different label or a different length returns exactly what it
    would have returned had the first call never happened. *)
Theorem optimize_other_slot_unaffected dataCache t1 t2 t3 t4
    (d1 d2 : list A) timeWindow1 timeWindow2 :
  timeWindow1 ≠ timeWindow2 ∨ length d1 ≠ length d2 →
  fst (optimizeDataForTimeWindow
         (snd (optimizeDataForTimeWindow dataCache t1 t2 d1 timeWindow1))
         t3 t4 d2 timeWindow2)
  = fst (optimizeDataForTimeWindow dataCache t3 t4 d2 timeWindow2).
Proof.
  intros Hdiff. apply optimize_reads_one_slot, optimize_writes_one_slot.
  intros [? ?]%cacheKey_eq_inv. destruct Hdiff; congruence.
Qed.

(** X9: the lifetime of a memoised result runs from the call that
    computed it.  A call answered from the memo leaves the cache exactly
    as it was, so it does not renew the 30 minutes; the first call of the
    same label and length more than 30 minutes after the computation
    computes again, from its own input, and stores that result with the
    time of its own [set]. *)
Theorem memo_lifetime_runs_from_computation dataCache t1 t2 t3 t4 t5 t6
    (d1 d2 d3 : list A) timeWindow :
  timeWindow ≠ "ALL" → d1 ≠ [] →
  length d2 = length d1 → length d3 = length d1 →
  memoHit dataCache t1 (cacheKey timeWindow (length d1)) = false →
  t3 - t2 <= 1800000 → 1800000 < t5 - t2 →
  let c1 := snd (optimizeDataForTimeWindow dataCache t1 t2 d1 timeWindow) in
  let c2 := snd (optimizeDataForTimeWindow c1 t3 t4 d2 timeWindow) in
  let c3 := snd (optimizeDataForTimeWindow c2 t5 t6 d3 timeWindow) in
  c2 = c1
  ∧ fst (optimizeDataForTimeWindow c2 t5 t6 d3 timeWindow)
    = optimizedData d3 timeWindow
  ∧ c3 !! cacheKey timeWindow (length d1)
    = Some {| data := IsArray (optimizedData d3 timeWindow);
              timestamp := t6; ttl := 1800000 |}.
Proof.
  intros Hw Hd1 Hl2 Hl3 Hmiss Hlive Hdead c1 c2 c3.
  assert (Hd2 : d2 ≠ []) by (by destruct d1, d2).
  assert (Hd3 : d3 ≠ []) by (by destruct d1, d3).
  pose proof (optimize_miss_state dataCache t1 t2 d1 timeWindow Hw Hd1 Hmiss)
    as Hentry. fold c1 in Hentry.
  assert (Hc2 : c2 = c1).
  { subst c2. rewrite <- Hl2 in Hentry.
    by rewrite (optimize_hit_state c1 t3 t4 d2 timeWindow _ _ Hw Hd2 Hentry
                  eq_refl) by (simpl; lia). }
  subst c3. rewrite Hc2. rewrite <- Hl3 in Hentry |- *.
  rewrite (optimize_expired c1 t5 t6 d3 timeWindow _ Hw Hd3 Hentry)
    by (simpl; lia).
  split; [done |]. split; [done |]. simpl. apply lookup_set.
Qed.
End OptimizeMemo.

Lemma optimize_other_slot_unaffected_witness :
  fst (optimizeDataForTimeWindow
         (snd (optimizeDataForTimeWindow ∅ 0 0 (seq 0 8) "1W"))
         1 1 (seq 100 9) "1W")
  = fst (optimizeDataForTimeWindow ∅ 1 1 (seq 100 9) "1W").
Proof. apply optimize_other_slot_unaffected. right. discriminate. Defined.

Lemma memo_lifetime_runs_from_computation_witness :
  let c1 := snd (optimizeDataForTimeWindow ∅ 0 0 (seq 0 8) "1W") in
  let c2 := snd (optimizeDataForTimeWindow c1 1800000 1800000 (seq 10 8) "1W") in
  c2 = c1
  ∧ fst (optimizeDataForTimeWindow c2 1800001 1800001 (seq 20 8) "1W")
    = optimizedData (seq 20 8) "1W".
Proof.
  intros c1 c2.
  destruct (memo_lifetime_runs_from_computation
              ∅ 0 0 1800000 1800000 1800001 1800001
              (seq 0 8) (seq 10 8) (seq 20 8) "1W") as (H1 & H2 & _);
    try reflexivity; try discriminate; try lia.
  split; [exact H1 | exact H2].
Defined.

Section OptimizeShape.
Context {A : Type}.
Implicit Types (arr l : list A) (timeWindow : string).

(** Below [a + 1] there is one more multiple of [k] than below [a]
    exactly when [a] is one. *)
Lemma ceil_div_step (a k : Z) :
  0 <= a → 0 < k →
  (a + 1 + k - 1) / k - (a + k - 1) / k = if a mod k =? 0 then 1 else 0.
Proof.
  intros Ha Hk.
  replace (a + 1 + k - 1) with (a + 1 * k) by lia.
  rewrite Z.div_add by lia.
  pose proof (Z.div_mod a k ltac:(lia)) as Hdm.
  pose proof (Z.mod_pos_bound a k Hk) as Hr.
  destruct (Z.eqb_spec (a mod k) 0) as [E|E].
  - replace (a + k - 1) with (k - 1 + a / k * k) by lia.
    rewrite Z.div_add, (Z.div_small (k - 1)) by lia. lia.
  - replace (a + k - 1) with (a mod k - 1 + (a / k + 1) * k) by lia.
    rewrite Z.div_add, (Z.div_small (a mod k - 1)) by lia. lia.
Qed.

(** Keeping the indices divisible by [k]: how many are kept. *)
Lemma Array_filter_from_stride_length (k : Z) (i : nat) l :
  0 < k →
  Z.of_nat (length (Array_filter_from i (λ _ index, index mod k =? 0) l))
  = (Z.of_nat i + Z.of_nat (length l) + k - 1) / k - (Z.of_nat i + k - 1) / k.
Proof.
  intros Hk. revert i. induction l as [|x l IH]; intros i; simpl length.
  - simpl. rewrite Z.add_0_r. lia.
  - simpl. pose proof (ceil_div_step (Z.of_nat i) k ltac:(lia) Hk) as Hstep.
    specialize (IH (S i)).
    replace (Z.of_nat (S i) + Z.of_nat (length l)) with
      (Z.of_nat i + Z.of_nat (S (length l))) in IH by lia.
    replace (Z.of_nat (S i) + k - 1) with (Z.of_nat i + 1 + k - 1) in IH by lia.
    destruct (Z.of_nat i mod k =? 0); simpl length; lia.
Qed.

(** Every branch returns some front part followed by a non-empty tail of
    the input in full; [k] is the length of that tail. *)
Lemma optimizedData_tail arr timeWindow :
  arr ≠ [] →
  ∃ (k : nat) front,
    (0 < k ≤ length arr)%nat
    ∧ optimizedData arr timeWindow = front ++ drop (length arr - k) arr
    ∧ front `sublist_of` take (length arr - k) arr
    ∧ (timeWindow = "3M" → (180 < length arr)%nat →
       k = 90%nat ∧ head front = head arr)
    ∧ (timeWindow = "1Y" → (365 < length arr)%nat →
       k = 365%nat ∧ head front = head arr).
Proof.
  intros Harr.
  assert (Hpos : (0 < length arr)%nat) by (destruct arr; [done | simpl; lia]).
  assert (Hwhole : ∃ (k : nat) front,
            (0 < k ≤ length arr)%nat
            ∧ arr = front ++ drop (length arr - k) arr
            ∧ front `sublist_of` take (length arr - k) arr).
  { exists (length arr), []. rewrite Nat.sub_diag. simpl.
    repeat split; try lia; constructor. }
  destruct (String.eqb_spec timeWindow "1W") as [->|N1].
  { destruct (le_lt_dec (length arr) 7) as [Hs|Hl].
    - rewrite (optimizedData_short arr) by (done || auto).
      destruct Hwhole as (k & front & ? & ? & ?).
      exists k, front. repeat split; try done; lia.
    - rewrite (optimizedData_1W arr Hl). exists 7%nat, [].
      repeat split; try done; try lia. apply sublist_nil_l. }
  destruct (String.eqb_spec timeWindow "1M") as [->|N2].
  { destruct (le_lt_dec (length arr) 60) as [Hs|Hl].
    - rewrite (optimizedData_short arr) by (done || auto).
      destruct Hwhole as (k & front & ? & ? & ?).
      exists k, front. repeat split; try done; lia.
    - rewrite (optimizedData_1M arr Hl). exists 30%nat, [].
      repeat split; try done; try lia. apply sublist_nil_l. }
  destruct (String.eqb_spec timeWindow "3M") as [->|N3].
  { destruct (le_lt_dec (length arr) 180) as [Hs|Hl].
    - rewrite (optimizedData_short arr) by (done || auto).
      destruct Hwhole as (k & front & ? & ? & ?).
      exists k, front. repeat split; try done; lia.
    - destruct (split_tail 90 arr) as (l1 & l2 & E & Hl2 & Hdrop); [lia |].
      assert (Hl1 : (90 < length l1)%nat)
        by (rewrite E, length_app in Hl; lia).
      assert (Htake : take (length arr - 90) arr = l1).
      { rewrite E at 2. rewrite E, length_app, Hl2.
        replace (length l1 + 90 - 90)%nat with (length l1) by lia.
        by rewrite take_app_length. }
      exists 90%nat, (Array_filter_from 0 (λ _ index, index mod 2 =? 0) l1).
      split; [lia |]. split.
      { rewrite <- Hdrop. rewrite E at 1. by apply optimizedData_3M. }
      split; [rewrite Htake; apply Array_filter_from_sublist |].
      split; [| done]. intros _ _. split; [done |].
      rewrite E. destruct l1 as [|x l1]; [simpl in Hl1; lia | done]. }
  destruct (String.eqb_spec timeWindow "1Y") as [->|N4].
  { destruct (le_lt_dec (length arr) 365) as [Hs|Hl].
    - rewrite (optimizedData_short arr) by (done || auto).
      destruct Hwhole as (k & front & ? & ? & ?).
      exists k, front. repeat split; try done; lia.
    - destruct (split_tail 365 arr) as (l1 & l2 & E & Hl2 & Hdrop); [lia |].
      assert (Hl1 : (0 < length l1)%nat)
        by (rewrite E, length_app in Hl; lia).
      assert (Htake : take (length arr - 365) arr = l1).
      { rewrite E at 2. rewrite E, length_app, Hl2.
        replace (length l1 + 365 - 365)%nat with (length l1) by lia.
        by rewrite take_app_length. }
      exists 365%nat, (Array_filter_from 0 (λ _ index, index mod 7 =? 0) l1).
      split; [lia |]. split.
      { rewrite <- Hdrop. rewrite E at 1. by apply optimizedData_1Y. }
      split; [rewrite Htake; apply Array_filter_from_sublist |].
      split; [done |]. intros _ _. split; [done |].
      rewrite E. destruct l1 as [|x l1]; [simpl in Hl1; lia | done]. }
  rewrite (optimizedData_short arr) by done.
  destruct Hwhole as (k & front & ? & ? & ?).
  exists k, front. repeat split; try done; lia.
Qed.

Lemma optimizedData_length arr timeWindow :
  Z.of_nat (length (optimizedData arr timeWindow))
  = optimizedLength timeWindow (Z.of_nat (length arr)).
Proof.
  unfold optimizedLength.
  destruct (String.eqb_spec timeWindow "1W") as [->|N1]; simpl.
  { destruct (Z.gtb_spec (Z.of_nat (length arr)) 7).
    - rewrite optimizedData_1W, length_drop by lia. lia.
    - rewrite optimizedData_short; (done || (intros _; lia)). }
  destruct (String.eqb_spec timeWindow "1M") as [->|N2]; simpl.
  { destruct (Z.gtb_spec (Z.of_nat (length arr)) 60).
    - rewrite optimizedData_1M, length_drop by lia. lia.
    - rewrite optimizedData_short; (done || (intros _; lia)). }
  destruct (String.eqb_spec timeWindow "3M") as [->|N3]; simpl.
  { destruct (Z.gtb_spec (Z.of_nat (length arr)) 180).
    - destruct (split_tail 90 arr) as (l1 & l2 & -> & Hl2 & _); [lia |].
      rewrite length_app in *.
      rewrite optimizedData_3M, length_app by lia.
      rewrite !Nat2Z.inj_add, (Array_filter_from_stride_length 2), Hl2 by lia.
      change (Z.of_nat 0) with 0. Z.div_mod_to_equations. lia.
    - rewrite optimizedData_short; (done || (intros _; lia)). }
  destruct (String.eqb_spec timeWindow "1Y") as [->|N4]; simpl.
  { destruct (Z.gtb_spec (Z.of_nat (length arr)) 365).
    - destruct (split_tail 365 arr) as (l1 & l2 & -> & Hl2 & _); [lia |].
      rewrite length_app in *.
      rewrite optimizedData_1Y, length_app by lia.
      rewrite !Nat2Z.inj_add, (Array_filter_from_stride_length 7), Hl2 by lia.
      change (Z.of_nat 0) with 0. Z.div_mod_to_equations. lia.
    - rewrite optimizedData_short; (done || (intros _; lia)). }
  by rewrite optimizedData_short.
Qed.
End OptimizeShape.

(** X10: how many points come back.  A call that is not answered from the
    memo returns 7 points for "1W" on more than 7, 30 for "1M" on more
    than 60, [90 + ceil((n - 90) / 2)] for "3M" on [n > 180],
    [365 + ceil((n - 365) / 7)] for "1Y" on [n > 365], and all [n] points
    otherwise. *)
Theorem optimize_output_length {A : Type}
    (dataCache : gmap string (CacheEntry (CachedValue A)))
    (t1 t2 : Z) (arr : list A) (timeWindow : string) :
  memoHit dataCache t1 (cacheKey timeWindow (length arr)) = false →
  Z.of_nat (length (fst (optimizeDataForTimeWindow dataCache t1 t2 arr timeWindow)))
  = optimizedLength timeWindow (Z.of_nat (length arr)).
Proof. intros Hmiss. rewrite optimize_miss by done. apply optimizedData_length. Qed.

Lemma optimize_output_length_witness :
  Z.of_nat (length (fst (optimizeDataForTimeWindow ∅ 0 0 (seq 0 1000) "3M"))) = 545.
Proof.
  rewrite (optimize_output_length ∅ 0 0 (seq 0 1000) "3M"); reflexivity.
Defined.

(** X11: the most recent points survive.  A call on a non-empty array that
    is not answered from the memo returns an array with the same last
    point; in the subsampling branches the last 90 ("3M") or 365 ("1Y")
    points of the input come back whole, as the end of the output, and
    the first point of the input is the first point of the output. *)
Theorem optimize_keeps_recent_tail {A : Type}
    (dataCache : gmap string (CacheEntry (CachedValue A)))
    (t1 t2 : Z) (arr : list A) (timeWindow : string) :
  memoHit dataCache t1 (cacheKey timeWindow (length arr)) = false →
  arr ≠ [] →
  let out := fst (optimizeDataForTimeWindow dataCache t1 t2 arr timeWindow) in
  last out = last arr
  ∧ (timeWindow = "3M" → (180 < length arr)%nat →
     drop (length arr - 90) arr `suffix_of` out ∧ head out = head arr)
  ∧ (timeWindow = "1Y" → (365 < length arr)%nat →
     drop (length arr - 365) arr `suffix_of` out ∧ head out = head arr).
Proof.
  intros Hmiss Harr out. subst out. rewrite optimize_miss by done.
  destruct (optimizedData_tail arr timeWindow Harr)
    as (k & front & Hk & -> & Hfront & H3M & H1Y).
  assert (Htail : drop (length arr - k) arr ≠ []).
  { intros E%(f_equal length). rewrite length_drop in E. simpl in E. lia. }
  assert (Hhead : is_Some (head arr)) by (by apply head_is_Some).
  split; [| split].
  - rewrite <- (take_drop (length arr - k) arr) at 3.
    rewrite !last_app.
    destruct (last (drop (length arr - k) arr)) eqn:E; [done |].
    by apply last_None in E.
  - intros Hw Hn. destruct (H3M Hw Hn) as [-> Hh].
    split; [by eexists |]. rewrite head_app, Hh. by destruct Hhead as [x ->].
  - intros Hw Hn. destruct (H1Y Hw Hn) as [-> Hh].
    split; [by eexists |]. rewrite head_app, Hh. by destruct Hhead as [x ->].
Qed.

Lemma optimize_keeps_recent_tail_witness :
  let out := fst (optimizeDataForTimeWindow ∅ 0 0 (seq 0 400) "1Y") in
  last out = last (seq 0 400)
  ∧ drop 35 (seq 0 400) `suffix_of` out ∧ head out = head (seq 0 400).
Proof.
  intros out.
  destruct (optimize_keeps_recent_tail ∅ 0 0 (seq 0 400) "1Y")
    as (Hlast & _ & H1Y); [reflexivity | discriminate |].
  split; [exact Hlast |]. apply H1Y; [reflexivity | simpl; lia].
Defined.

(** * Further properties of the date-cutoff reducer *)

(** Evaluates the carry [a / 12] and the month [a mod 12] of a constant
    month number. *)
Ltac eval_month_carry :=
  repeat match goal with
         | |- context [?a / 12] =>
             let v := eval vm_compute in (a / 12) in
             progress change (a / 12) with v
         | |- context [?a mod 12] =>
             let v := eval vm_compute in (a mod 12) in
             progress change (a mod 12) with v
         end.

Section WindowReach.
Import JSDate.

Lemma leap_flag y :
  (if DaysInYear y =? 366 then 1 else 0)
  = DayFromYear (y + 1) - DayFromYear y - 365.
Proof. rewrite DaysInYear_step. unfold DaysInYear. case_ifs; lia. Qed.

(** Over the whole calendar, each window reaches back a number of days
    within the bounds of [windowDays]: by cases on the month. *)
Lemma daysBack_bounds lt timeWindow :
  timeWindow ≠ ALL →
  fst (windowDays timeWindow) <= daysBack lt timeWindow
  <= snd (windowDays timeWindow).
Proof.
  intros Hw. unfold daysBack.
  rewrite <- (MakeDay_of_fields lt).
  pose proof (MonthFromTime_range lt) as Hm.
  set (y := YearFromTime lt). set (m := MonthFromTime lt) in *.
  set (d := DateFromTime lt). clearbody y m d.
  assert (m = 0 ∨ m = 1 ∨ m = 2 ∨ m = 3 ∨ m = 4 ∨ m = 5 ∨ m = 6 ∨ m = 7
          ∨ m = 8 ∨ m = 9 ∨ m = 10 ∨ m = 11) as Hcases by lia.
  destruct timeWindow; [done | ..];
    cbv [windowOffset windowDays fst snd];
    decompose [or] Hcases; subst m; clear;
    unfold MakeDay; eval_month_carry; cbn [DaysBeforeMonth];
    rewrite ?leap_flag; unfold DayFromYear;
    Z.div_mod_to_equations; lia.
Qed.

Lemma width_inj timeWindow1 timeWindow2 :
  width timeWindow1 = width timeWindow2 → timeWindow1 = timeWindow2.
Proof. by destruct timeWindow1, timeWindow2. Qed.

Lemma windowDays_apart timeWindow1 timeWindow2 :
  timeWindow1 ≠ ALL → timeWindow2 ≠ ALL →
  (width timeWindow1 < width timeWindow2)%nat →
  snd (windowDays timeWindow1) < fst (windowDays timeWindow2).
Proof.
  destruct timeWindow1; [done | ..]; (destruct timeWindow2; [done | ..]);
    cbv [windowDays fst snd width]; lia.
Qed.

(** A wider window reaches back at least as far. *)
Lemma daysBack_mono lt timeWindow1 timeWindow2 :
  timeWindow1 ≠ ALL → timeWindow2 ≠ ALL →
  (width timeWindow1 ≤ width timeWindow2)%nat →
  daysBack lt timeWindow1 <= daysBack lt timeWindow2.
Proof.
  intros H1 H2 Hw.
  destruct (decide (width timeWindow1 = width timeWindow2)) as [E|Hne].
  { apply width_inj in E as ->. lia. }
  pose proof (daysBack_bounds lt timeWindow1 H1) as B1.
  pose proof (daysBack_bounds lt timeWindow2 H2) as B2.
  pose proof (windowDays_apart _ _ H1 H2 ltac:(lia)). lia.
Qed.

(** In a zone at a fixed offset the setters move the clock reading by
    whole days. *)
Lemma cutoffDate_fixedOffset offset now timeWindow :
  timeWindow ≠ ALL →
  cutoffDate (ISO.fixedOffset offset) now now timeWindow
  = TimeClip (now - daysBack (now + offset) timeWindow * msPerDay).
Proof.
  intros Hw. rewrite cutoffDate_offset by done.
  unfold offsetCutoff, daysBack, LocalTime, UTC, ISO.fixedOffset.
  destruct (windowOffset timeWindow) as [[years months] days].
  f_equal.
  pose proof (MakeDate_Day_TimeWithinDay (now + offset)) as H.
  unfold MakeDate in *. lia.
Qed.

Lemma TimeClip_in_range now back :
  0 <= now <= 8640000000000000 → 0 <= back <= 1096 →
  TimeClip (now - back * msPerDay) = Some (now - back * msPerDay).
Proof.
  intros Hnow Hback. unfold TimeClip, msPerDay.
  destruct (Z.gtb_spec (Z.abs (now - back * 86400000)) 8640000000000000);
    [lia | done].
Qed.

Lemma windowDays_small lt timeWindow :
  timeWindow ≠ ALL → 0 <= daysBack lt timeWindow <= 1096.
Proof.
  intros Hw. pose proof (daysBack_bounds lt timeWindow Hw) as B.
  assert (0 <= fst (windowDays timeWindow)
          ∧ snd (windowDays timeWindow) <= 1096) as [? ?]
    by (destruct timeWindow; cbv [windowDays fst snd]; lia).
  lia.
Qed.
End WindowReach.

Section WindowNesting.
Variable offset : Z.
Variable Date_parse : string → option Z.
Context {M : Type}.
Implicit Types (arr : list (TimeSeriesPoint M)) (timeWindow : TimeWindow).

Local Abbreviation reduce :=
  (filterDataByTimeWindow (ISO.fixedOffset offset) Date_parse).

Lemma List_filter_filter (p q : TimeSeriesPoint M → bool) arr :
  (∀ x, p x = true → q x = true) →
  List.filter p (List.filter q arr) = List.filter p arr.
Proof.
  intros Hpq. induction arr as [|x arr IH]; simpl; [done |].
  destruct (q x) eqn:Eq; simpl.
  - destruct (p x); by rewrite IH.
  - destruct (p x) eqn:Ep; [| done]. apply Hpq in Ep. congruence.
Qed.

(** X12: in a zone at a fixed offset from UTC, on one clock reading, the
    cutoff of every window lies a whole number of days before the
    clock reading, whatever the time of day and the offset: 7 days for
    "1W", 28 to 31 for "1M", 89 to 92 for "3M", 181 to 184 for "6M", 365
    or 366 for "1Y" and 1095 or 1096 for "3Y". *)
Theorem cutoff_is_whole_days_back now timeWindow :
  timeWindow ≠ ALL →
  ∃ back,
    cutoffDate (ISO.fixedOffset offset) now now timeWindow
    = JSDate.TimeClip (now - back * JSDate.msPerDay)
    ∧ fst (windowDays timeWindow) <= back <= snd (windowDays timeWindow).
Proof.
  intros Hw. exists (daysBack (now + offset) timeWindow).
  split; [by apply cutoffDate_fixedOffset | by apply daysBack_bounds].
Qed.

Lemma cutoff_order now timeWindow1 timeWindow2 :
  0 <= now <= 8640000000000000 →
  timeWindow1 ≠ ALL → timeWindow2 ≠ ALL →
  (width timeWindow1 ≤ width timeWindow2)%nat →
  ∃ c1 c2,
    cutoffDate (ISO.fixedOffset offset) now now timeWindow1 = Some c1
    ∧ cutoffDate (ISO.fixedOffset offset) now now timeWindow2 = Some c2
    ∧ c2 <= c1 <= now.
Proof.
  intros Hnow H1 H2 Hw.
  pose proof (windowDays_small (now + offset) timeWindow1 H1) as B1.
  pose proof (windowDays_small (now + offset) timeWindow2 H2) as B2.
  pose proof (daysBack_mono (now + offset) _ _ H1 H2 Hw) as Hmono.
  rewrite !cutoffDate_fixedOffset, !TimeClip_in_range by done.
  eexists _, _. split; [done |]. split; [done |].
  unfold JSDate.msPerDay. lia.
Qed.

(** X13: the windows are nested.  In a zone at a fixed offset, on one
    clock reading at or after the epoch, a wider window keeps every
    point that a narrower one keeps: filtering by the narrower window
    after the wider one gives what the narrower window gives alone, and
    the narrower result is a subsequence of the wider. *)
Theorem wider_window_keeps_more now arr timeWindow1 timeWindow2 :
  0 <= now <= 8640000000000000 →
  (width timeWindow1 ≤ width timeWindow2)%nat →
  let reduce := filterDataByTimeWindow (ISO.fixedOffset offset) Date_parse now now in
  reduce (reduce arr timeWindow2) timeWindow1 = reduce arr timeWindow1
  ∧ reduce arr timeWindow1 `sublist_of` reduce arr timeWindow2.
Proof.
  intros Hnow Hw reduce'. subst reduce'.
  assert (Hcomp : reduce now now (reduce now now arr timeWindow2) timeWindow1
                  = reduce now now arr timeWindow1).
  { destruct (decide (timeWindow2 = ALL)) as [->|H2]; [done |].
    assert (H1 : timeWindow1 ≠ ALL).
    { intros ->. destruct timeWindow2; try done; cbv [width] in Hw; lia. }
    rewrite !filter_not_ALL by done.
    destruct (cutoff_order now _ _ Hnow H1 H2 Hw) as (c1 & c2 & -> & -> & Hc).
    apply List_filter_filter. intros x.
    unfold JSDate.ge. destruct (Date_parse (date x)) as [d|]; [| done].
    intros H%Z.leb_le. apply Z.leb_le. lia. }
  split; [done |]. rewrite <- Hcomp. apply filter_sublist.
Qed.

(** X14: there is no upper bound.  In a zone at a fixed offset, on one
    clock reading at or after the epoch, a point dated at or after the
    clock reading is kept by every window. *)
Theorem points_from_now_on_are_kept now arr timeWindow item d :
  0 <= now <= 8640000000000000 →
  item ∈ arr → Date_parse (date item) = Some d → now <= d →
  item ∈ filterDataByTimeWindow (ISO.fixedOffset offset) Date_parse
           now now arr timeWindow.
Proof.
  intros Hnow Hin Hd Hle.
  destruct (decide (timeWindow = ALL)) as [->|Hw]; [done |].
  rewrite filter_not_ALL by done.
  destruct (cutoff_order now _ _ Hnow Hw Hw (le_n _)) as (c1 & c2 & E1 & _ & Hc).
  rewrite E1.
  apply list_elem_of_In, filter_In. split; [by apply list_elem_of_In |].
  rewrite Hd. simpl. apply Z.leb_le. lia.
Qed.
End WindowNesting.

Lemma cutoff_is_whole_days_back_witness :
  ∃ back,
    cutoffDate (ISO.fixedOffset 3600000) exampleNow exampleNow TW_6M
    = JSDate.TimeClip (exampleNow - back * JSDate.msPerDay)
    ∧ 181 <= back <= 184.
Proof. apply (cutoff_is_whole_days_back 3600000 exampleNow TW_6M). discriminate. Defined.

Lemma wider_window_keeps_more_witness :
  let reduce := filterDataByTimeWindow (ISO.fixedOffset 0) ISO.parse exampleNow exampleNow in
  reduce (reduce exampleSeries TW_1Y) TW_1M = reduce exampleSeries TW_1M
  ∧ reduce exampleSeries TW_1M `sublist_of` reduce exampleSeries TW_1Y.
Proof.
  apply (wider_window_keeps_more 0 ISO.parse exampleNow exampleSeries TW_1M TW_1Y).
  - unfold exampleNow. lia.
  - simpl. lia.
Defined.

Lemma points_from_now_on_are_kept_witness :
  let item := {| date := "2025-09-02"; metrics := 0 |} in
  item ∈ filterDataByTimeWindow (ISO.fixedOffset 0) ISO.parse
           exampleNow exampleNow [item] TW_1W.
Proof.
  intros item.
  apply (points_from_now_on_are_kept 0 ISO.parse exampleNow [item] TW_1W item exampleNow).
  - unfold exampleNow. lia.
  - apply list_elem_of_singleton. reflexivity.
  - vm_compute. reflexivity.
  - lia.
Defined.

(** X15: what is kept depends on the dates alone.  Rewriting the other
    fields of every point before filtering, as the pool charts do when
    they fill in [tvl], gives the rewritten points of what filtering
    the original series gives. *)
Theorem filter_commutes_with_relabelling
    (LocalTZA : Z → bool → Z) (Date_parse : string → option Z)
    {M M' : Type} (f : TimeSeriesPoint M → TimeSeriesPoint M')
    (now start : Z) (arr : list (TimeSeriesPoint M)) (timeWindow : TimeWindow) :
  (∀ item, date (f item) = date item) →
  filterDataByTimeWindow LocalTZA Date_parse now start (map f arr) timeWindow
  = map f (filterDataByTimeWindow LocalTZA Date_parse now start arr timeWindow).
Proof.
  intros Hdate.
  destruct (decide (timeWindow = ALL)) as [->|Hw]; [done |].
  rewrite !filter_not_ALL by done.
  induction arr as [|x arr IH]; simpl; [done |].
  rewrite Hdate. destruct (JSDate.ge _ _); simpl; by rewrite IH.
Qed.

Lemma filter_commutes_with_relabelling_witness :
  let f := λ item : TimeSeriesPoint Z,
             {| date := date item; metrics := metrics item + 1 |} in
  filterDataByTimeWindow (ISO.fixedOffset 0) ISO.parse exampleNow exampleNow
    (map f exampleSeries) TW_1W
  = map f (filterDataByTimeWindow (ISO.fixedOffset 0) ISO.parse
             exampleNow exampleNow exampleSeries TW_1W).
Proof. intros f. apply filter_commutes_with_relabelling. reflexivity. Defined.

(** * The axis labels *)

Section TickFacts.
Variable LocalTZA : Z → bool → Z.
Variable Date_parse : string → option Z.

Local Abbreviation format := (tickFormatter LocalTZA Date_parse).

Lemma append_cons_nonempty s1 c s2 : String.eqb (s1 +:+ String c s2) "" = false.
Proof. by destruct s1. Qed.

(** A tick is left blank exactly when its position is neither a multiple
    of the interval, nor the first, nor the last. *)
Lemma tickFormatter_blank divisor totalTicks value index :
  String.eqb (format divisor totalTicks value index) ""
  = negb ((Z.rem index (Z.max 1 (Z.of_nat totalTicks / divisor)) =? 0)
          || (index =? 0) || (index =? Z.of_nat totalTicks - 1)).
Proof.
  unfold tickFormatter. destruct (_ || _ || _); [| done].
  apply append_cons_nonempty.
Qed.

Lemma List_filter_length_le {X : Type} (p q : X → bool) l :
  (∀ x, p x = true → q x = true) →
  (length (List.filter p l) ≤ length (List.filter q l))%nat.
Proof.
  intros Hpq. induction l as [|x l IH]; simpl; [done |].
  destruct (p x) eqn:Ep.
  - rewrite (Hpq x Ep). simpl. lia.
  - destruct (q x); simpl; lia.
Qed.

Lemma List_filter_length_or {X : Type} (p q : X → bool) l :
  (length (List.filter (λ x, p x || q x) l)
   ≤ length (List.filter p l) + length (List.filter q l))%nat.
Proof.
  induction l as [|x l IH]; simpl; [done |].
  destruct (p x), (q x); simpl; lia.
Qed.

Lemma count_one_position (c : Z) (start len : nat) :
  (length (List.filter (λ i, (Z.of_nat i =? c)%Z) (seq start len))
   ≤ if (c <? Z.of_nat start)%Z then 0 else 1)%nat.
Proof.
  revert start. induction len as [|len IH]; intros start; simpl.
  - destruct (_ <? _); lia.
  - specialize (IH (S start)).
    destruct (Z.eqb_spec (Z.of_nat start) c),
             (Z.ltb_spec c (Z.of_nat start)),
             (Z.ltb_spec c (Z.of_nat (S start))); simpl in *; lia.
Qed.

(** Below [n] there are [ceil (n / k)] multiples of [k]. *)
Lemma count_multiples (k : Z) (n : nat) :
  0 < k →
  Z.of_nat (length (List.filter (λ i, Z.of_nat i mod k =? 0) (seq 0 n)))
  = (Z.of_nat n + k - 1) / k.
Proof.
  intros Hk. induction n as [|n IH].
  - simpl. rewrite Z.div_small; lia.
  - rewrite seq_S, List.filter_app, length_app, Nat2Z.inj_add, IH. simpl.
    pose proof (ceil_div_step (Z.of_nat n) k ltac:(lia) Hk) as Hstep.
    replace (Z.of_nat (S n) + k - 1) with (Z.of_nat n + 1 + k - 1) by lia.
    destruct (Z.of_nat n mod k =? 0); simpl; lia.
Qed.

(** With [divisor] at least 3, at most [2 * divisor - 1] positions get a
    label, however long the series. *)
Lemma labelledTicks_bound divisor values totalTicks :
  3 <= divisor →
  Z.of_nat (length (labelledTicks LocalTZA Date_parse divisor values totalTicks))
  <= 2 * divisor - 1.
Proof.
  intros Hd. unfold labelledTicks.
  set (n := Z.of_nat totalTicks).
  set (k := Z.max 1 (n / divisor)).
  assert (Hn : 0 <= n) by lia.
  pose proof (Z.div_mod n divisor ltac:(lia)) as Hdm.
  pose proof (Z.mod_pos_bound n divisor ltac:(lia)) as Hr.
  assert (Hq : 0 <= n / divisor) by (apply Z.div_pos; lia).
  destruct (Z.le_gt_cases k 1) as [Hk1|Hk2].
  - (* the interval is 1: fewer than [2 * divisor] points in all *)
    pose proof (List.filter_length_le
      (λ i, negb (String.eqb (format divisor totalTicks (values i) (Z.of_nat i)) ""))
      (seq 0 totalTicks)) as Hlen.
    rewrite length_seq in Hlen.
    assert (n / divisor <= 1) by lia. nia.
  - assert (Hk : k = n / divisor) by lia.
    etrans.
    { apply inj_le, (List_filter_length_le _
        (λ i, (Z.of_nat i mod k =? 0) || (Z.of_nat i =? n - 1))).
      intros i. rewrite tickFormatter_blank, negb_involutive. fold n k.
      rewrite Z.rem_mod_nonneg by lia.
      destruct (Z.eqb_spec (Z.of_nat i) 0) as [->|]; [| by rewrite orb_false_r].
      intros _. by rewrite Z.mod_0_l by lia. }
    etrans; [apply inj_le, List_filter_length_or |].
    rewrite Nat2Z.inj_add, count_multiples by lia.
    pose proof (count_one_position (n - 1) 0 totalTicks) as Hone.
    assert ((n + k - 1) / k < 2 * divisor - 1).
    { apply Z.div_lt_upper_bound; [lia |].
      assert (Hpos : 0 < (divisor - 2) * (k - 1)) by (apply Z.mul_pos_pos; lia).
      replace ((divisor - 2) * (k - 1))
        with (divisor * k - divisor - 2 * k + 2) in Hpos by ring.
      replace (k * (2 * divisor - 1)) with (2 * (divisor * k) - k) by ring.
      rewrite <- Hk in Hdm. clear Hone. clearbody n k. lia. }
    fold n. set (last := length (List.filter _ _)) in *.
    clearbody last n k. destruct (_ <? _); lia.
Qed.
End TickFacts.

Section TickLabels.
Import JSDate.

(** Year, month and day of the month are those of the day. *)
Lemma fields_of_day t1 t2 :
  Day t1 = Day t2 →
  YearFromTime t1 = YearFromTime t2 ∧ MonthFromTime t1 = MonthFromTime t2.
Proof.
  intros H.
  unfold MonthFromTime, DayWithinYear, InLeapYear, YearFromTime.
  by rewrite H.
Qed.

Lemma tickFormatter_same_day LocalTZA LocalTZA' Date_parse
    divisor totalTicks value value' index t t' :
  Date_parse value = Some t → Date_parse value' = Some t' →
  Day (LocalTime LocalTZA t) = Day (LocalTime LocalTZA' t') →
  tickFormatter LocalTZA Date_parse divisor totalTicks value index
  = tickFormatter LocalTZA' Date_parse divisor totalTicks value' index.
Proof.
  intros Ht Ht' Hday. unfold tickFormatter, getMonth, getFullYear.
  rewrite Ht, Ht'.
  destruct (fields_of_day _ _ Hday) as [-> ->]. done.
Qed.

(** X16: the labels are few, and the ends are labelled.  Of the ticks of
    a chart, whatever its length and its dates, at most 9 get a label in
    the token charts (divisor 5) and at most 7 in the pool charts
    (divisor 4); the first and the last tick always get one. *)
Theorem tick_labels_are_few LocalTZA Date_parse
    (values : nat → string) (totalTicks : nat) :
  (length (labelledTicks LocalTZA Date_parse 5 values totalTicks) ≤ 9)%nat
  ∧ (length (labelledTicks LocalTZA Date_parse 4 values totalTicks) ≤ 7)%nat
  ∧ ∀ divisor,
      (0 < totalTicks)%nat →
      0%nat ∈ labelledTicks LocalTZA Date_parse divisor values totalTicks
      ∧ (totalTicks - 1)%nat
          ∈ labelledTicks LocalTZA Date_parse divisor values totalTicks.
Proof.
  split; [| split].
  - pose proof (labelledTicks_bound LocalTZA Date_parse 5 values totalTicks).
    lia.
  - pose proof (labelledTicks_bound LocalTZA Date_parse 4 values totalTicks).
    lia.
  - intros divisor Hpos. unfold labelledTicks.
    split; apply list_elem_of_In, filter_In; (split; [apply in_seq; lia |]);
      rewrite tickFormatter_blank, negb_involutive.
    + by rewrite orb_true_r.
    + replace (Z.of_nat (totalTicks - 1)) with (Z.of_nat totalTicks - 1) by lia.
      rewrite Z.eqb_refl. apply orb_true_r.
Qed.

Lemma tick_labels_are_few_witness :
  0%nat ∈ labelledTicks (ISO.fixedOffset 0) ISO.parse 5 (λ _, "2025-09-01") 400
  ∧ 399%nat ∈ labelledTicks (ISO.fixedOffset 0) ISO.parse 5 (λ _, "2025-09-01") 400.
Proof.
  destruct (tick_labels_are_few (ISO.fixedOffset 0) ISO.parse
              (λ _, "2025-09-01") 400) as (_ & _ & H).
  apply (H 5). lia.
Defined.

(** X17: the labels show local time.  A date-only string is midnight UTC
    of its day; in a zone at a fixed offset behind UTC that instant still
    belongs to the day before, so every tick carries the month and year
    of the day before its date (the first of a month is labelled with
    the month before); at an offset of zero or ahead of UTC it carries
    those of its own day. *)
Theorem tick_label_follows_local_day Date_parse
    divisor totalTicks value before index day offset :
  Date_parse value = Some (day * msPerDay) →
  Date_parse before = Some ((day - 1) * msPerDay) →
  (0 <= offset < msPerDay →
     tickFormatter (ISO.fixedOffset offset) Date_parse divisor totalTicks value index
     = tickFormatter (ISO.fixedOffset 0) Date_parse divisor totalTicks value index)
  ∧ (- msPerDay <= offset < 0 →
     tickFormatter (ISO.fixedOffset offset) Date_parse divisor totalTicks value index
     = tickFormatter (ISO.fixedOffset 0) Date_parse divisor totalTicks before index).
Proof.
  intros Hv Hb. unfold msPerDay in *.
  split; intros Hoff;
    [ apply (tickFormatter_same_day _ _ _ _ _ _ _ _ _ _ Hv Hv)
    | apply (tickFormatter_same_day _ _ _ _ _ _ _ _ _ _ Hv Hb) ];
    unfold LocalTime, ISO.fixedOffset, Day, msPerDay;
    Z.div_mod_to_equations; lia.
Qed.

Lemma tick_label_follows_local_day_witness :
  tickFormatter (ISO.fixedOffset (-3600000)) ISO.parse 5 400 "2025-09-01" 0
  = tickFormatter (ISO.fixedOffset 0) ISO.parse 5 400 "2025-08-31" 0
  ∧ tickFormatter (ISO.fixedOffset 0) ISO.parse 5 400 "2025-08-31" 0 = "Aug '25".
Proof.
  split; [| vm_compute; reflexivity].
  destruct (tick_label_follows_local_day ISO.parse 5 400
              "2025-09-01" "2025-08-31" 0 20332 (-3600000)) as [_ H].
  - vm_compute. reflexivity.
  - vm_compute. reflexivity.
  - apply H. unfold msPerDay. lia.
Defined.
End TickLabels.

(** * Preparing chart data *)

Section ChartDataFacts.
Variable number : Type.
Variable num : Z → number.
Variable toBoolean : number → bool.
Variable gt ge : number → number → bool.
Variable sub div mul : number → number → number.
Variable toFixed : number → Z → string.
Context {M : Type}.
Implicit Types (timeseries : list (TimeSeriesPoint (PoolFields number M)))
  (item : TimeSeriesPoint (PoolFields number M)).

Local Abbreviation precompute :=
  (precomputeChartData number num toBoolean gt ge sub div mul toFixed).
Local Abbreviation point :=
  (precomputePoint number num toBoolean gt ge sub div mul toFixed).
Local Abbreviation tvlOf := (tvlOrZero number num toBoolean).
Local Abbreviation mapped := (mappedTimeseries number num toBoolean).

Lemma precompute_lookup timeseries (i : nat) :
  precompute timeseries !! i = point timeseries i <$> timeseries !! i.
Proof.
  unfold precomputeChartData.
  destruct timeseries as [|x l]; [done |]. apply list_lookup_imap.
Qed.

Lemma precompute_length timeseries :
  length (precompute timeseries) = length timeseries.
Proof.
  unfold precomputeChartData.
  destruct timeseries as [|x l]; [done |]. apply length_imap.
Qed.

Lemma precompute_dates timeseries :
  date <$> precompute timeseries = date <$> timeseries.
Proof.
  apply list_eq. intros i.
  rewrite !list_lookup_fmap, precompute_lookup.
  by destruct (timeseries !! i).
Qed.

Lemma mapped_dates timeseries : date <$> mapped timeseries = date <$> timeseries.
Proof.
  unfold mappedTimeseries.
  induction timeseries as [|x l IH]; [reflexivity |].
  cbn. f_equal. exact IH.
Qed.

(** What a window keeps of two series with the same dates has the same
    dates. *)
Lemma filter_dates_only {M1 M2 : Type} LocalTZA Date_parse now start
    (l1 : list (TimeSeriesPoint M1)) (l2 : list (TimeSeriesPoint M2)) timeWindow :
  date <$> l1 = date <$> l2 →
  date <$> filterDataByTimeWindow LocalTZA Date_parse now start l1 timeWindow
  = date <$> filterDataByTimeWindow LocalTZA Date_parse now start l2 timeWindow.
Proof.
  intros Hd.
  destruct (decide (timeWindow = ALL)) as [->|Hw]; [done |].
  rewrite !filter_not_ALL by done.
  revert l2 Hd. induction l1 as [|x l1 IH]; intros [|y l2] Hd; try done.
  simpl in Hd. injection Hd as Hxy Hd. simpl. rewrite Hxy.
  destruct (JSDate.ge _ _); simpl; [rewrite Hxy; f_equal |]; by apply IH.
Qed.

Section ZeroIsFalsy.
(** [0] is falsy. *)
Hypothesis zero_falsy : toBoolean (num 0) = false.

Lemma tvlOf_point timeseries i item :
  tvlOf (point timeseries i item) = tvlOf item.
Proof using zero_falsy.
  unfold tvlOrZero at 1. simpl. unfold tvlOrZero.
  destruct (tvlUsd (metrics item)) as [x|]; [destruct (toBoolean x) eqn:Ex |];
    try done;
    (destruct (tvl (metrics item)) as [y|]; [destruct (toBoolean y) eqn:Ey |]);
    by rewrite ?Ex, ?Ey, ?zero_falsy.
Qed.

Lemma point_point timeseries i item :
  timeseries !! i = Some item →
  point (precompute timeseries) i (point timeseries i item)
  = point timeseries i item.
Proof using zero_falsy.
  intros Hi. unfold precomputePoint at 1.
  rewrite tvlOf_point.
  assert (Hprev :
    match (if (0 <? i)%nat then precompute timeseries !! (i - 1)%nat else None) with
    | Some prev => tvlOf prev
    | None => tvlOf item
    end
    = match (if (0 <? i)%nat then timeseries !! (i - 1)%nat else None) with
      | Some prev => tvlOf prev
      | None => tvlOf item
      end).
  { destruct (0 <? i)%nat; [| done]. rewrite precompute_lookup.
    destruct (timeseries !! (i - 1)%nat); simpl; [apply tvlOf_point | done]. }
  rewrite Hprev. done.
Qed.

(** X18: preparing twice is preparing once.  Given that [0] is falsy,
    [precomputeChartData] applied to its own output returns that output:
    the [tvl] it filled in is the one it would choose again, and with it
    the change, and the formatted texts. *)
Theorem precomputeChartData_idempotent timeseries :
  let prepare :=
    precomputeChartData number num toBoolean gt ge sub div mul toFixed in
  prepare (prepare timeseries) = prepare timeseries.
Proof using zero_falsy.
  intros prepare. subst prepare.
  apply list_eq. intros i. rewrite !precompute_lookup.
  destruct (timeseries !! i) as [item|] eqn:Hi; [| done]. simpl.
  f_equal. by apply point_point.
Qed.

(** X19: the pool chart's own [tvl: item.tvlUsd || item.tvl || 0] changes
    nothing on prepared data, given that [0] is falsy: the chart filters
    exactly the prepared series. *)
Theorem mappedTimeseries_of_prepared LocalTZA Date_parse now start
    timeseries timeWindow :
  mapped (precompute timeseries) = precompute timeseries
  ∧ filterDataByTimeWindow LocalTZA Date_parse now start
      (mapped (precompute timeseries)) timeWindow
    = filterDataByTimeWindow LocalTZA Date_parse now start
        (precompute timeseries) timeWindow.
Proof using zero_falsy.
  assert (H : mapped (precompute timeseries) = precompute timeseries).
  { unfold mappedTimeseries. apply list_eq. intros i.
    rewrite list_lookup_fmap, precompute_lookup.
    destruct (timeseries !! i) as [item|]; [| done]. simpl.
    by rewrite tvlOf_point. }
  by rewrite H.
Qed.
End ZeroIsFalsy.

(** X20: preparing a series changes neither its length nor its dates, so
    a window shows the same days before and after: the dates of what the
    pool chart filters out of the prepared series are the dates of what
    the window keeps of the raw series. *)
Theorem prepared_series_shows_same_days LocalTZA Date_parse now start
    timeseries timeWindow :
  length (precompute timeseries) = length timeseries
  ∧ date <$> filterDataByTimeWindow LocalTZA Date_parse now start
               (mapped (precompute timeseries)) timeWindow
    = date <$> filterDataByTimeWindow LocalTZA Date_parse now start
                 timeseries timeWindow.
Proof.
  split; [apply precompute_length |].
  apply filter_dates_only. by rewrite mapped_dates, precompute_dates.
Qed.
End ChartDataFacts.

Lemma precomputeChartData_idempotent_witness :
  let truthy := λ x : Z, negb (x =? 0) in
  let text := λ (x : Z) (_ : Z), pretty x in
  let prepare :=
    precomputeChartData Z (λ z, z) truthy Z.gtb Z.geb Z.sub Z.div Z.mul text in
  let series :=
    [ {| date := "2025-08-31";
         metrics := mkPoolFields (Some 0) (Some 1500) (Some 12) None None None tt |};
      {| date := "2025-09-01";
         metrics := mkPoolFields None (Some 1800) None None None None tt |} ] in
  prepare (prepare series) = prepare series.
Proof.
  intros truthy text prepare series.
  apply precomputeChartData_idempotent. reflexivity.
Defined.

Lemma mappedTimeseries_of_prepared_witness :
  let truthy := λ x : Z, negb (x =? 0) in
  let text := λ (x : Z) (_ : Z), pretty x in
  let prepare :=
    precomputeChartData Z (λ z, z) truthy Z.gtb Z.geb Z.sub Z.div Z.mul text in
  let series :=
    [ {| date := "2025-08-31";
         metrics := mkPoolFields (Some 0) (Some 1500) (Some 12) None None None tt |};
      {| date := "2025-09-01";
         metrics := mkPoolFields None (Some 1800) None None None None tt |} ] in
  mappedTimeseries Z (λ z, z) truthy (prepare series) = prepare series.
Proof.
  intros truthy text prepare series.
  apply (mappedTimeseries_of_prepared Z (λ z, z) truthy Z.gtb Z.geb Z.sub Z.div
           Z.mul text eq_refl (ISO.fixedOffset 0) ISO.parse 0 0 series TW_1W).
Defined.

(** * The two clock readings *)

Section TwoReadings.
Import JSDate.

Lemma date_of_day t1 t2 : Day t1 = Day t2 → DateFromTime t1 = DateFromTime t2.
Proof.
  intros H.
  unfold DateFromTime, MonthFromTime, DayWithinYear, InLeapYear, YearFromTime.
  by rewrite H.
Qed.

(** X21: the two [new Date()] of [filterDataByTimeWindow] agree unless a
    local day ends between them.  When both readings fall on the same
    local day, the cutoff, and with it the result, is the one that the
    second reading alone gives. *)
Theorem same_day_readings_agree LocalTZA Date_parse {M : Type}
    (now start : Z) (arr : list (TimeSeriesPoint M)) timeWindow :
  Day (LocalTime LocalTZA now) = Day (LocalTime LocalTZA start) →
  cutoffDate LocalTZA now start timeWindow
  = cutoffDate LocalTZA start start timeWindow
  ∧ filterDataByTimeWindow LocalTZA Date_parse now start arr timeWindow
    = filterDataByTimeWindow LocalTZA Date_parse start start arr timeWindow.
Proof.
  intros Hday.
  assert (Hcut : cutoffDate LocalTZA now start timeWindow
                 = cutoffDate LocalTZA start start timeWindow).
  { destruct (fields_of_day _ _ Hday) as [Hy Hm].
    pose proof (date_of_day _ _ Hday) as Hd.
    unfold cutoffDate, getFullYear, getMonth, getDate.
    destruct timeWindow; by rewrite ?Hy, ?Hm, ?Hd. }
  split; [done |]. unfold filterDataByTimeWindow. by rewrite Hcut.
Qed.

Lemma same_day_readings_agree_witness :
  cutoffDate (ISO.fixedOffset 0) exampleNow (exampleNow + 5) TW_3M
  = cutoffDate (ISO.fixedOffset 0) (exampleNow + 5) (exampleNow + 5) TW_3M.
Proof.
  destruct (same_day_readings_agree (ISO.fixedOffset 0) ISO.parse
              exampleNow (exampleNow + 5) exampleSeries TW_3M) as [H _].
  - vm_compute. reflexivity.
  - exact H.
Defined.
End TwoReadings.

(** * The cutoff of the date-cutoff reducer *)

Section CalendarRoundTrip.
Import JSDate.

Lemma YearFromDay_unique d y :
  DayFromYear y <= d < DayFromYear (y + 1) → YearFromDay d = y.
Proof.
  intros [Hlo Hhi].
  pose proof (YearFromDay_largest d y Hlo) as Hge.
  pose proof (YearFromDay_spec d) as [Hspec _].
  destruct (Z.le_gt_cases (YearFromDay d) y) as [|Hgt]; [lia |].
  pose proof (DayFromYear_mono (y + 1) (YearFromDay d)). lia.
Qed.

Lemma Day_MakeDate day time :
  0 <= time < msPerDay →
  Day (MakeDate day time) = day ∧ TimeWithinDay (MakeDate day time) = time.
Proof.
  intros H. unfold Day, TimeWithinDay, MakeDate, msPerDay in *.
  Z.div_mod_to_equations. lia.
Qed.

Lemma TimeWithinDay_range t : 0 <= TimeWithinDay t < msPerDay.
Proof. unfold TimeWithinDay, msPerDay. Z.div_mod_to_equations. lia. Qed.

(** Reading back what [MakeDay] was given: a day that exists in its
    month is found again by the getters' functions, the month carried
    into the year. *)
Lemma fields_of_MakeDay year month date time :
  1 <= date <= daysInMonth (year + month / 12) (month mod 12) →
  0 <= time < msPerDay →
  let t := MakeDate (MakeDay year month date) time in
  YearFromTime t = year + month / 12
  ∧ MonthFromTime t = month mod 12
  ∧ DateFromTime t = date.
Proof.
  intros Hd Ht t.
  destruct (Day_MakeDate (MakeDay year month date) time Ht) as [HDay _].
  fold t in HDay.
  unfold DateFromTime, MonthFromTime, DayWithinYear, InLeapYear, YearFromTime.
  rewrite HDay. clear HDay t Ht time.
  unfold MakeDay.
  set (ym := year + month / 12) in *.
  assert (Hm : 0 <= month mod 12 < 12) by (apply Z.mod_pos_bound; lia).
  set (mn := month mod 12) in *. clearbody ym mn. clear year month.
  pose proof (DaysInYear_step ym) as Hstep.
  assert (Hleap : DaysInYear ym = 365 ∨ DaysInYear ym = 366)
    by (unfold DaysInYear; case_ifs; lia).
  assert (Hcases : mn = 0 ∨ mn = 1 ∨ mn = 2 ∨ mn = 3 ∨ mn = 4 ∨ mn = 5
                   ∨ mn = 6 ∨ mn = 7 ∨ mn = 8 ∨ mn = 9 ∨ mn = 10 ∨ mn = 11)
    by lia.
  assert (HY : YearFromDay
                 (DayFromYear ym
                  + DaysBeforeMonth mn (if DaysInYear ym =? 366 then 1 else 0)
                  + date - 1) = ym).
  { apply YearFromDay_unique. rewrite Hstep.
    decompose [or] Hcases; subst mn; cbn [DaysBeforeMonth daysInMonth] in *;
      destruct Hleap as [E|E]; rewrite E in *; simpl in *; lia. }
  rewrite HY. split; [done |].
  decompose [or] Hcases; subst mn; cbn [DaysBeforeMonth daysInMonth] in *;
    destruct Hleap as [E|E]; rewrite E in *; simpl in *;
    case_ifs; try lia; (split; [reflexivity || lia | lia]).
Qed.

Lemma DateFromTime_range t : 1 <= DateFromTime t <= 31.
Proof.
  pose proof (MakeDay_of_fields t) as H.
  rewrite MakeDay_in_year in H by apply MonthFromTime_range.
  pose proof (YearFromDay_spec (Day t)) as [Hlo Hhi].
  rewrite DaysInYear_step in Hhi.
  fold (YearFromTime t) in Hlo, Hhi.
  assert (Hleap : DaysInYear (YearFromTime t) = 365
                  ∨ DaysInYear (YearFromTime t) = 366)
    by (unfold DaysInYear; case_ifs; lia).
  unfold DateFromTime, MonthFromTime, DayWithinYear, InLeapYear in *.
  destruct Hleap as [E|E]; rewrite E in *; simpl in *; case_ifs; lia.
Qed.

Lemma daysInMonth_range year month : 28 <= daysInMonth year month <= 31.
Proof. unfold daysInMonth. repeat case_match; lia. Qed.

(** A day past the end of its month is the day of the following month
    that many days on. *)
Lemma MakeDay_next_month year month date :
  MakeDay year month date
  = MakeDay year (month + 1)
      (date - daysInMonth (year + month / 12) (month mod 12)).
Proof.
  unfold MakeDay.
  assert (Hm : 0 <= month mod 12 < 12) by (apply Z.mod_pos_bound; lia).
  assert (Hnext : (month mod 12 < 11
                   ∧ (month + 1) / 12 = month / 12
                   ∧ (month + 1) mod 12 = month mod 12 + 1)
                  ∨ (month mod 12 = 11
                     ∧ (month + 1) / 12 = month / 12 + 1
                     ∧ (month + 1) mod 12 = 0))
    by (Z.div_mod_to_equations; lia).
  set (ym := year + month / 12) in *.
  destruct Hnext as [(Hlt & Hq & Hr) | (Heq & Hq & Hr)]; rewrite Hq, Hr.
  - fold ym. set (mn := month mod 12) in *. clearbody ym mn.
    assert (Hleap : DaysInYear ym = 365 ∨ DaysInYear ym = 366)
      by (unfold DaysInYear; case_ifs; lia).
    assert (Hcases : mn = 0 ∨ mn = 1 ∨ mn = 2 ∨ mn = 3 ∨ mn = 4 ∨ mn = 5
                     ∨ mn = 6 ∨ mn = 7 ∨ mn = 8 ∨ mn = 9 ∨ mn = 10) by lia.
    decompose [or] Hcases; subst mn; cbn [DaysBeforeMonth daysInMonth Z.add];
      destruct Hleap as [E|E]; rewrite E; simpl; lia.
  - rewrite Heq.
    replace (year + (month / 12 + 1)) with (ym + 1) by (subst ym; lia).
    rewrite DaysInYear_step. cbn [DaysBeforeMonth daysInMonth].
    assert (Hleap : DaysInYear ym = 365 ∨ DaysInYear ym = 366)
      by (unfold DaysInYear; case_ifs; lia).
    destruct Hleap as [E|E]; rewrite E; simpl; lia.
Qed.
End CalendarRoundTrip.

Section CutoffMeaning.
Import JSDate.
Variable LocalTZA : Z → bool → Z.
Variable Date_parse : string → option Z.
Context {M : Type}.
Implicit Types (arr : list (TimeSeriesPoint M)) (timeWindow : TimeWindow).

(** With both readings on one local day, the setters move the local time
    of the second reading back by whole days. *)
Lemma cutoffDate_daysBack now start timeWindow :
  timeWindow ≠ ALL →
  Day (LocalTime LocalTZA now) = Day (LocalTime LocalTZA start) →
  cutoffDate LocalTZA now start timeWindow
  = TimeClip (UTC LocalTZA
                (LocalTime LocalTZA start
                 - daysBack (LocalTime LocalTZA start) timeWindow * msPerDay)).
Proof.
  intros Hw Hday.
  set (lt := LocalTime LocalTZA start) in *.
  assert (Hwall : MakeDate (Day lt - daysBack lt timeWindow) (TimeWithinDay lt)
                  = lt - daysBack lt timeWindow * msPerDay).
  { pose proof (MakeDate_Day_TimeWithinDay lt) as H.
    unfold MakeDate in *. lia. }
  rewrite <- Hwall.
  destruct (fields_of_day _ _ Hday) as [Hy Hm].
  pose proof (date_of_day _ _ Hday) as Hd.
  unfold cutoffDate, setFullYear, setMonth, setDate,
    getFullYear, getMonth, getDate, daysBack.
  fold lt. rewrite Hy, Hm, Hd.
  destruct timeWindow; [done | ..]; cbv [windowOffset];
    rewrite ?Z.sub_0_r; do 3 f_equal; lia.
Qed.

(** The local time moved back is the day [MakeDay] makes of the month
    the window leads to and the day of the month of the clock. *)
Lemma wall_MakeDay lt timeWindow :
  timeWindow ≠ ALL → timeWindow ≠ TW_1W →
  let target := monthIndex lt - monthsBack timeWindow in
  ∃ year month,
    lt - daysBack lt timeWindow * msPerDay
    = MakeDate (MakeDay year month (DateFromTime lt)) (TimeWithinDay lt)
    ∧ 12 * year + month = target
    ∧ year + month / 12 = target / 12 ∧ month mod 12 = target mod 12.
Proof.
  intros Hw H1W target.
  pose proof (MonthFromTime_range lt) as Hm.
  exists (YearFromTime lt - fst (fst (windowOffset timeWindow))),
         (MonthFromTime lt - snd (fst (windowOffset timeWindow))).
  split.
  - pose proof (MakeDate_Day_TimeWithinDay lt) as H.
    unfold MakeDate, daysBack in *.
    destruct timeWindow; try done; cbv [windowOffset fst snd];
      rewrite ?Z.sub_0_r; lia.
  - subst target. unfold monthIndex, monthsBack.
    destruct timeWindow; try done; cbv [windowOffset fst snd];
      (split; [lia |]); Z.div_mod_to_equations; lia.
Qed.

(** Where the day of the month exists in the month the window leads to,
    the local time moved back is on that day of that month; where it
    does not, it is as many days into the following month as the day
    exceeds the month. *)
Lemma monthIndex_wall lt timeWindow :
  timeWindow ≠ ALL → timeWindow ≠ TW_1W →
  let target := monthIndex lt - monthsBack timeWindow in
  let days := daysInMonth (target / 12) (target mod 12) in
  let wall := lt - daysBack lt timeWindow * msPerDay in
  (DateFromTime lt <= days →
   monthIndex wall = target ∧ DateFromTime wall = DateFromTime lt)
  ∧ (days < DateFromTime lt →
     monthIndex wall = target + 1 ∧ DateFromTime wall = DateFromTime lt - days).
Proof.
  intros Hw H1W target days wall.
  pose proof (DateFromTime_range lt) as Hd.
  destruct (wall_MakeDay lt timeWindow Hw H1W)
    as (year & month & Hwall & Ht & Hy & Hmn).
  fold wall target in Hwall, Ht, Hy, Hmn.
  split; intros Hdate.
  - destruct (fields_of_MakeDay year month (DateFromTime lt) (TimeWithinDay lt))
      as (HY & HM & HD).
    + rewrite Hy, Hmn. fold days. lia.
    + apply TimeWithinDay_range.
    + rewrite Hwall. unfold monthIndex. rewrite HY, HM, HD. split; [| done].
      rewrite <- Ht. Z.div_mod_to_equations. lia.
  - rewrite MakeDay_next_month, Hy, Hmn in Hwall. fold days in Hwall.
    destruct (fields_of_MakeDay year (month + 1) (DateFromTime lt - days)
                (TimeWithinDay lt)) as (HY & HM & HD).
    + pose proof (daysInMonth_range (target / 12) (target mod 12)) as B1.
      pose proof (daysInMonth_range (year + (month + 1) / 12)
                    ((month + 1) mod 12)) as B2.
      fold days in B1. lia.
    + apply TimeWithinDay_range.
    + rewrite Hwall. unfold monthIndex. rewrite HY, HM, HD. split; [| done].
      rewrite <- Ht. Z.div_mod_to_equations. lia.
Qed.

(** C1: for a window other than "ALL" and a non-empty input, the result
    is the input filtered by [date >= cutoff]: a point is kept exactly
    when it is in the input with a date at or after the cutoff, and every
    kept point's date lies between the cutoff and the latest date of the
    input.  When the two clock readings fall on one local day, the cutoff
    is the local time of the clock moved back by the window's offset in
    the calendar arithmetic of [Date]: the same time of day a whole
    number [back] of days earlier, 7 for "1W", 28 to 31 for "1M", 89 to
    92 for "3M", 181 to 184 for "6M", 365 or 366 for "1Y" and 1095 or
    1096 for "3Y"; in a zone at a fixed offset the cutoff is the clock
    reading minus [back] days, and that local time is its own; and for
    the month and year windows that local time is on the clock's day of
    the month in the month 1, 3, 6, 12 or 36 months back when that month
    has such a day, and otherwise as many days into the following month
    as the day exceeds that month. *)
Theorem filter_keeps_points_from_cutoff now start arr timeWindow :
  timeWindow ≠ ALL → arr ≠ [] →
  let cutoff := cutoffDate LocalTZA now start timeWindow in
  let kept := filterDataByTimeWindow LocalTZA Date_parse now start arr timeWindow in
  let local := LocalTime LocalTZA start in
  (Day (LocalTime LocalTZA now) = Day local →
   ∃ back,
     fst (windowDays timeWindow) <= back <= snd (windowDays timeWindow)
     ∧ cutoff = TimeClip (UTC LocalTZA (local - back * msPerDay))
     ∧ (∀ offset, (∀ t isUTC, LocalTZA t isUTC = offset) →
        cutoff = TimeClip (start - back * msPerDay)
        ∧ LocalTime LocalTZA (start - back * msPerDay) = local - back * msPerDay)
     ∧ (timeWindow ≠ TW_1W →
        let target := monthIndex local - monthsBack timeWindow in
        let days := daysInMonth (target / 12) (target mod 12) in
        let wall := local - back * msPerDay in
        (DateFromTime local <= days →
         monthIndex wall = target ∧ DateFromTime wall = DateFromTime local)
        ∧ (days < DateFromTime local →
           monthIndex wall = target + 1
           ∧ DateFromTime wall = DateFromTime local - days)))
  ∧ kept = List.filter (λ item, JSDate.ge (Date_parse (date item)) cutoff) arr
  ∧ (∀ item, item ∈ kept ↔
       item ∈ arr
       ∧ ∃ c d, cutoff = Some c ∧ Date_parse (date item) = Some d ∧ c <= d)
  ∧ (∀ item, item ∈ kept →
       ∃ c d late,
         cutoff = Some c ∧ Date_parse (date item) = Some d
         ∧ latestDate Date_parse arr = Some late ∧ c <= d <= late).
Proof.
  intros Hw Harr cutoff kept local.
  assert (Hkept : kept = List.filter
                           (λ item, JSDate.ge (Date_parse (date item)) cutoff) arr)
    by (by apply filter_not_ALL).
  assert (Hin : ∀ item, item ∈ kept ↔
            item ∈ arr
            ∧ ∃ c d, cutoff = Some c ∧ Date_parse (date item) = Some d ∧ c <= d).
  { intros item. rewrite Hkept, list_elem_of_In, filter_In, <- list_elem_of_In.
    by rewrite ge_Some_inv. }
  split; [| split; [exact Hkept | split; [exact Hin |]]].
  - intros Hday.
    pose proof (cutoffDate_daysBack now start timeWindow Hw Hday) as Hcut.
    fold local cutoff in Hcut.
    exists (daysBack local timeWindow).
    split; [by apply daysBack_bounds |]. split; [exact Hcut |]. split.
    + intros offset Hzone. rewrite Hcut.
      unfold UTC. subst local. unfold LocalTime. rewrite !Hzone.
      split; [f_equal |]; lia.
    + intros H1W. by apply monthIndex_wall.
  - intros item (Hitem & c & d & Hc & Hd & Hle)%Hin.
    destruct (latestDate_upper Date_parse arr item d Hitem Hd)
      as (late & Hlate & Hdl).
    exists c, d, late. repeat split; done.
Qed.
End CutoffMeaning.

Lemma filter_keeps_points_from_cutoff_witness :
  let host := ISO.fixedOffset 0 in
  let start := exampleNow + 5 in
  ∃ back,
    89 <= back <= 92
    ∧ cutoffDate host exampleNow start TW_3M
      = JSDate.TimeClip (start - back * JSDate.msPerDay)
    ∧ monthIndex (start - back * JSDate.msPerDay) = 12 * 2025 + 5
    ∧ JSDate.DateFromTime (start - back * JSDate.msPerDay) = 2
    ∧ filterDataByTimeWindow host ISO.parse exampleNow start exampleSeries TW_3M
      = List.filter
          (λ item, JSDate.ge (ISO.parse (date item))
                     (cutoffDate host exampleNow start TW_3M))
          exampleSeries.
Proof.
  intros host start.
  destruct (filter_keeps_points_from_cutoff host ISO.parse
              exampleNow start exampleSeries TW_3M) as (Hcut & Hkept & _).
  - discriminate.
  - discriminate.
  - destruct Hcut as (back & Hback & _ & Hfixed & Hcal).
    + vm_compute. reflexivity.
    + destruct Hcal as [Hcal _]; [discriminate |].
      destruct Hcal as [Hmonth Hdate]; [vm_compute; discriminate |].
      destruct (Hfixed 0 (λ _ _, eq_refl)) as [Hzone _].
      exists back. split; [exact Hback |]. split; [exact Hzone |].
      split; [exact Hmonth |]. split; [exact Hdate | exact Hkept].
Defined.

(** C1 as worded fails in two ways.  The clock is read twice: with
    midnight of 1 February 2025 between the two readings, "1W" sets day
    31 - 7 = 24 on a date of February, so the cutoff is 24 February,
    after the clock, and a point of 31 January, not seven days old, is
    dropped.  And on one reading, one month before 31 March is "31
    February", which [Date] reads as 3 March: the cutoff lies in the
    month of the clock, and a point of 1 March is dropped. *)
Lemma cutoff_after_midnight_and_at_month_end :
  let utc := ISO.fixedOffset 0 in
  let point := λ day : string, {| date := day; metrics := 0 |} in
  (∃ feb1 jan31 feb24,
     ISO.parse "2025-02-01" = Some feb1
     ∧ ISO.parse "2025-01-31" = Some jan31
     ∧ ISO.parse "2025-02-24" = Some feb24
     ∧ cutoffDate utc (feb1 - 1) feb1 TW_1W = Some feb24
     ∧ feb1 < feb24
     ∧ feb1 - 7 * JSDate.msPerDay <= jan31 <= feb1 - 1
     ∧ filterDataByTimeWindow utc ISO.parse (feb1 - 1) feb1
         [point "2025-01-31"] TW_1W = [])
  ∧ (∃ mar31 mar3 mar1,
       ISO.parse "2025-03-31" = Some mar31
       ∧ ISO.parse "2025-03-03" = Some mar3
       ∧ ISO.parse "2025-03-01" = Some mar1
       ∧ cutoffDate utc mar31 mar31 TW_1M = Some mar3
       ∧ monthIndex mar3 = monthIndex mar31
       ∧ mar31 - 30 * JSDate.msPerDay <= mar1 <= mar31
       ∧ filterDataByTimeWindow utc ISO.parse mar31 mar31
           [point "2025-03-01"] TW_1M = []).
Proof.
  intros utc point. split.
  - exists 1738368000000, 1738281600000, 1740355200000.
    split; [vm_compute; reflexivity |]. split; [vm_compute; reflexivity |].
    split; [vm_compute; reflexivity |]. split; [vm_compute; reflexivity |].
    split; [lia |]. split; [unfold JSDate.msPerDay; lia |].
    vm_compute. reflexivity.
  - exists 1743379200000, 1740960000000, 1740787200000.
    split; [vm_compute; reflexivity |]. split; [vm_compute; reflexivity |].
    split; [vm_compute; reflexivity |]. split; [vm_compute; reflexivity |].
    split; [vm_compute; reflexivity |]. split; [unfold JSDate.msPerDay; lia |].
    vm_compute. reflexivity.
Qed.

(** * The worked example and the time of day *)

Section ExampleClock.
Import JSDate.

(** A local date names its day. *)
Lemma Day_of_localDate LocalTZA t year month date :
  localDate LocalTZA t = (year, month, date) →
  Day (LocalTime LocalTZA t) = MakeDay year month date.
Proof.
  unfold localDate, getFullYear, getMonth, getDate.
  intros [= <- <- <-]. symmetry. apply MakeDay_of_fields.
Qed.

(** The clock on the local date 2025-09-02, in a zone at a fixed offset:
    one year back is 365 days back. *)
Lemma example_cutoff_1Y offset now start :
  localDate (ISO.fixedOffset offset) now = (2025, 8, 2) →
  localDate (ISO.fixedOffset offset) start = (2025, 8, 2) →
  cutoffDate (ISO.fixedOffset offset) now start TW_1Y
  = TimeClip (start - 365 * msPerDay)
  ∧ exampleNow - offset <= start < exampleNow - offset + msPerDay.
Proof.
  intros Hnow%Day_of_localDate Hstart%Day_of_localDate.
  change (MakeDay 2025 8 2) with 20333 in *.
  rewrite (cutoffDate_daysBack (ISO.fixedOffset offset) now start TW_1Y)
    by (done || congruence).
  unfold daysBack. cbv [windowOffset]. rewrite !Z.sub_0_r.
  set (lt := LocalTime (ISO.fixedOffset offset) start) in *.
  assert (HY : YearFromTime lt = 2025)
    by (unfold YearFromTime; rewrite Hstart; reflexivity).
  assert (HM : MonthFromTime lt = 8)
    by (unfold MonthFromTime, DayWithinYear, InLeapYear, YearFromTime;
        rewrite Hstart; reflexivity).
  assert (HD : DateFromTime lt = 2)
    by (unfold DateFromTime, MonthFromTime, DayWithinYear, InLeapYear,
          YearFromTime; rewrite Hstart; reflexivity).
  rewrite HY, HM, HD, Hstart.
  change (MakeDay (2025 - 1) 8 2) with 19968.
  subst lt. unfold LocalTime, UTC, ISO.fixedOffset, Day, msPerDay, exampleNow in *.
  split; [f_equal; lia |]. Z.div_mod_to_equations. lia.
Qed.

(** Every point of the series is dated at a midnight UTC. *)
Lemma exampleSeries_midnights item :
  item ∈ exampleSeries → ∃ day, ISO.parse (date item) = Some (day * msPerDay).
Proof.
  intros Hin.
  apply (list_elem_of_fmap_2 (λ item, ISO.parse (date item))) in Hin.
  rewrite exampleSeries_daily in Hin.
  apply list_elem_of_fmap in Hin as (i & -> & _). by eexists.
Qed.

Local Abbreviation from day :=
  (List.filter
     (λ item : TimeSeriesPoint Z, JSDate.ge (ISO.parse (date item)) (ISO.parse day))
     exampleSeries).
Local Abbreviation from_midnight day :=
  (List.filter
     (λ item : TimeSeriesPoint Z,
        JSDate.ge (ISO.parse (date item)) (Some (day * msPerDay)))
     exampleSeries).

(** A cutoff between two midnights keeps what the later midnight keeps. *)
Lemma exampleSeries_cutoff_between cutoff day :
  (day - 1) * msPerDay < cutoff <= day * msPerDay →
  List.filter
    (λ item : TimeSeriesPoint Z, JSDate.ge (ISO.parse (date item)) (Some cutoff))
    exampleSeries
  = from_midnight day.
Proof.
  intros Hc. apply List.filter_ext_in. intros item Hin%list_elem_of_In.
  destruct (exampleSeries_midnights item Hin) as (d & ->). simpl.
  unfold msPerDay in *.
  destruct (Z.leb_spec cutoff (d * 86400000)),
    (Z.leb_spec (day * 86400000) (d * 86400000)); try done; lia.
Qed.

Lemma exampleSeries_from_2024_09_02 :
  from_midnight 19968 = from "2024-09-02"
  ∧ from_midnight 19968 = Array_slice (-365) exampleSeries
  ∧ length (from_midnight 19968) = 365%nat.
Proof.
  split; [vm_compute; reflexivity |]. split; vm_compute; reflexivity.
Qed.

Lemma exampleSeries_from_2024_09_03 :
  from_midnight 19969 = from "2024-09-03"
  ∧ from_midnight 19969 = Array_slice (-364) exampleSeries
  ∧ length (from_midnight 19969) = 364%nat.
Proof.
  split; [vm_compute; reflexivity |]. split; vm_compute; reflexivity.
Qed.

Lemma exampleSeries_from_2024_09_04 :
  from_midnight 19970 = from "2024-09-04"
  ∧ from_midnight 19970 = Array_slice (-363) exampleSeries
  ∧ length (from_midnight 19970) = 363%nat.
Proof.
  split; [vm_compute; reflexivity |]. split; vm_compute; reflexivity.
Qed.

(** C6: 400 consecutive daily points ending 2025-09-01, window "1Y", both
    clock readings on the local date 2025-09-02, in a zone at a fixed
    offset of less than a day.  The cutoff is the clock reading minus 365
    days, its time of day included, and a point is dated at midnight UTC
    of its day.  So the points dated 2024-09-02 or later, the last 365,
    are kept as long as the clock has not passed 2025-09-02T00:00:00.000Z;
    after that instant the point of 2024-09-02 is dropped and the points
    dated 2024-09-03 or later, the last 364, are kept (and the last 363
    once the clock has passed 2025-09-03T00:00Z, which is still the 2nd
    of September west of UTC). *)
Theorem example_1Y_keeps_last_365 offset now start :
  - msPerDay < offset < msPerDay →
  localDate (ISO.fixedOffset offset) now = (2025, 8, 2) →
  localDate (ISO.fixedOffset offset) start = (2025, 8, 2) →
  let kept :=
    filterDataByTimeWindow (ISO.fixedOffset offset) ISO.parse
      now start exampleSeries TW_1Y in
  cutoffDate (ISO.fixedOffset offset) now start TW_1Y
  = Some (start - 365 * msPerDay)
  ∧ (start <= exampleNow →
     kept = from "2024-09-02"
     ∧ kept = Array_slice (-365) exampleSeries ∧ length kept = 365%nat)
  ∧ (exampleNow < start <= exampleNow + msPerDay →
     kept = from "2024-09-03"
     ∧ kept = Array_slice (-364) exampleSeries ∧ length kept = 364%nat)
  ∧ (exampleNow + msPerDay < start →
     kept = from "2024-09-04"
     ∧ kept = Array_slice (-363) exampleSeries ∧ length kept = 363%nat).
Proof.
  intros Hoff Hnow Hstart kept.
  destruct (example_cutoff_1Y offset now start Hnow Hstart) as [Hcut Hrange].
  assert (Hclip : TimeClip (start - 365 * msPerDay) = Some (start - 365 * msPerDay)).
  { unfold TimeClip, msPerDay, exampleNow in *.
    destruct (Z.gtb_spec (Z.abs (start - 365 * 86400000)) 8640000000000000);
      [lia | reflexivity]. }
  rewrite Hclip in Hcut. clear Hclip.
  assert (Hkept : kept = List.filter
                           (λ item : TimeSeriesPoint Z,
                              JSDate.ge (ISO.parse (date item))
                                (Some (start - 365 * msPerDay)))
                           exampleSeries).
  { subst kept. rewrite filter_not_ALL by discriminate.
    rewrite Hcut. reflexivity. }
  clearbody kept. subst kept.
  split; [exact Hcut |].
  split; [| split]; intros Hs.
  - rewrite (exampleSeries_cutoff_between _ 19968)
      by (unfold msPerDay, exampleNow in *; lia).
    exact exampleSeries_from_2024_09_02.
  - rewrite (exampleSeries_cutoff_between _ 19969)
      by (unfold msPerDay, exampleNow in *; lia).
    exact exampleSeries_from_2024_09_03.
  - rewrite (exampleSeries_cutoff_between _ 19970)
      by (unfold msPerDay, exampleNow in *; lia).
    exact exampleSeries_from_2024_09_04.
Qed.

Lemma example_1Y_keeps_last_365_witness :
  filterDataByTimeWindow (ISO.fixedOffset 0) ISO.parse
    exampleNow exampleNow exampleSeries TW_1Y
  = Array_slice (-365) exampleSeries
  ∧ filterDataByTimeWindow (ISO.fixedOffset 0) ISO.parse
      (exampleNow + 1) (exampleNow + 2) exampleSeries TW_1Y
    = Array_slice (-364) exampleSeries.
Proof.
  split.
  - destruct (example_1Y_keeps_last_365 0 exampleNow exampleNow)
      as (_ & H & _).
    + unfold msPerDay. lia.
    + vm_compute. reflexivity.
    + vm_compute. reflexivity.
    + destruct H as (_ & H & _); [lia | exact H].
  - destruct (example_1Y_keeps_last_365 0 (exampleNow + 1) (exampleNow + 2))
      as (_ & _ & H & _).
    + unfold msPerDay. lia.
    + vm_compute. reflexivity.
    + vm_compute. reflexivity.
    + destruct H as (_ & H & _); [unfold msPerDay; lia | exact H].
Defined.

(** C6 as worded fails for a clock anywhere else on 2025-09-02: at noon
    UTC the cutoff is noon of 2024-09-02, the point of that day, dated at
    midnight, lies before it, and 364 points are kept, from 2024-09-03
    on. *)
Lemma example_1Y_at_noon_keeps_364 :
  let utc := ISO.fixedOffset 0 in
  let noon := exampleNow + 12 * 3600000 in
  let kept := filterDataByTimeWindow utc ISO.parse noon noon exampleSeries TW_1Y in
  localDate utc noon = (2025, 8, 2)
  ∧ length kept = 364%nat
  ∧ date <$> head kept = Some "2024-09-03"
  ∧ kept ≠ from "2024-09-02"
  ∧ kept ≠ Array_slice (-365) exampleSeries.
Proof.
  intros utc noon kept.
  assert (Hlen : length kept = 364%nat) by (vm_compute; reflexivity).
  split; [vm_compute; reflexivity |]. split; [exact Hlen |].
  split; [vm_compute; reflexivity |].
  split; intros E; apply (f_equal length) in E; rewrite Hlen in E;
    vm_compute in E; discriminate E.
Qed.
End ExampleClock.
